(** * cluster/datastore.go: a struct kept in sync with a KV store

    A shallow embedding of [Datastore] (the watch-driven cache and the
    Begin / Commit transaction protocol) as state-passing functions over
    the memory of one process, followed by the properties of the protocol.

    Conventions of the embedding.
    - A Go pointer is a location; what it points to lives in a typed heap
      of the [World] ([stores] for [*Datastore], [objects] for the user
      structs behind [Object], [metas] for [*Metadata]).  Dereferencing a
      location that is not allocated is a run-time panic.
    - An [error] is [option string]: [None] is Go's [nil].
    - Everything that is not this file's code (the KV store, the lock
      service, the random source, the scheduler) is a function on an
      abstract external state [Ext]; the results of such calls are never
      assumed, they are whatever these functions return.
    - Every call that leaves the goroutine and every access to the cached
      Object and Metadata is appended to the [trace] of the world. *)

From Stdlib Require Import ZArith Lia.
From stdpp Require Import base strings list gmap.

Local Open Scope Z_scope.

(** ** Basic types *)

(** Go's [error] interface: [nil] or a message. *)
Definition error : Type := option string.

(** [time.Duration]: a count of nanoseconds. *)
Definition Duration : Type := Z.
Definition Nanosecond : Duration := 1.
Definition Second : Duration := 1000000000 * Nanosecond.

Abbreviation loc := positive.

(** [Object] is an empty interface; the program only ever passes pointers
    to user structs through it. *)
Definition Object : Type := loc.

(** [context.Context] values are opaque handles; cancellation reaches the
    code only through the [select] statements. *)
Definition Context : Type := nat.

(** Metadata stores Object plus metadata *)
Record Metadata : Type := mkMetadata { Lock : string }.

(** [store.LockOptions] *)
Record LockOptions : Type := mkLockOptions {
  TTL : Duration;
  Value : list Byte.byte
}.

(** [sync.RWMutex]: one writer or any number of readers. *)
Record RWMutex : Type := mkRWMutex { writer : bool; readers : nat }.

Definition unlocked : RWMutex := {| writer := false; readers := 0 |}.

(** The two pieces of cached state that [localLock] is there to guard. *)
Inductive Cached : Type := CachedObject | CachedMeta.

Inductive LogArg : Type :=
| AString (s : string)
| ADuration (d : Duration).

(** What a goroutine of this file does that another party can observe. *)
Inductive Event : Type :=
| EvLock | EvUnlock | EvRLock | EvRUnlock     (* on d.localLock *)
| EvRead (c : Cached)
| EvWrite (c : Cached)
| EvWatch (key : string)
| EvLoadConfig (c : Cached) (target : loc)
| EvStoreConfig (object : Object)
| EvNewLock (key : string) (opts : LockOptions)
| EvRemoteLock                                 (* remoteLock.Lock(stopCh) is called *)
| EvRemoteUnlock
| EvListener (object : Object)
| EvCancel                                     (* cancel() of the sub-context *)
| EvStop                                       (* stopCh <- struct{}{} went through *)
| EvSleep (at_ : Duration) (d : Duration)      (* time.Sleep(d) started at at_ *)
| EvErrorf (format : string) (args : list LogArg)
| EvDebugf (format : string) (args : list LogArg).

(** What the [select] of the watch goroutine can receive.  [stopCh] is
    not buffered: the send that follows [<-ctx.Done()] goes through when
    the watch of the store receives it, and blocks for ever when the watch
    has ended. *)
Inductive Signal : Type :=
| SigCtxDone                (* <-ctx.Done(), and the watch of the store receives on stopCh *)
| SigKv (ok : bool)         (* _, ok := <-kvCh *)
| SigCtxDoneUnheard.        (* <-ctx.Done(), and nobody receives on stopCh *)

(** How the [select] of [Begin] resolves.  [stopCh] is not buffered: the
    send that follows [<-d.ctx.Done()] goes through when the lock attempt
    is still waiting and receives it, and blocks for ever otherwise (the
    attempt has returned already). *)
Inductive BeginSelect : Type :=
| LockGoroutineDone          (* remoteLock.Lock returned, cancel() ran, <-ctx.Done() is taken *)
| ChildCtxDone               (* d.ctx was cancelled and <-ctx.Done() is taken: errLock is still nil *)
| LifetimeCtxDone (e : error)(* <-d.ctx.Done() is taken, the lock attempt receives on stopCh;
                                e is d.ctx.Err() *)
| NothingReady
| LifetimeCtxDoneUnheard (e : error). (* <-d.ctx.Done() is taken, nobody receives on stopCh *)

Section Cluster.

(** [Config]: the contents of a user struct behind an [Object].
    [Ext]: the state of everything outside the process. *)
Context {Config Ext : Type}.

(** Listener is called when Object has been changed in KV store *)
Definition Listener : Type := Object -> gmap loc Config -> Ext -> error * Ext.

(** [store.Locker] *)
Record Locker : Type := mkLocker {
  Locker_Lock : Ext -> error * Ext;
  Locker_Unlock : Ext -> error * Ext
}.

(** [staert.KvSource]: the methods of the client that this file calls.
    [LoadConfig] deserialises in place: it is given the contents of its
    target and returns the new contents; the program calls it at the two
    dynamic types [Object] and [*Metadata]. *)
Record KvSource : Type := mkKvSource {
  Prefix : string;
  Watch : string -> Ext -> error * Ext;
  LoadConfig_Object : Config -> Ext -> (Config * error) * Ext;
  LoadConfig_Metadata : Metadata -> Ext -> (Metadata * error) * Ext;
  StoreConfig : Object -> gmap loc Config -> Ext -> error * Ext;
  NewLock : string -> LockOptions -> Ext -> (Locker * error) * Ext
}.

(** Datastore holds a struct synced in a KV store *)
Record Datastore : Type := mkDatastore {
  kv : KvSource;
  ctx : Context;
  localLock : RWMutex;
  object : Object;
  meta : loc;
  lockKey : string;
  listener : option Listener
}.

Record datastoreTransaction : Type := mkTransaction {
  Datastore_ : loc;            (* the embedded *Datastore *)
  remoteLock : Locker;
  dirty : bool;
  id : string
}.

(** A goroutine started with [go]: the closure of [watchChanges] with the
    variables it captures, its receiver and the [err] of the [Watch] call. *)
Record GoTask : Type := mkGoTask { task_d : loc; task_err : error }.

(** The rest of the run-time: the random sources, the scheduler, and the
    constants of package backoff. *)
Record Runtime : Type := mkRuntime {
  uuid_NewV4 : Ext -> string * Ext;
  (** which case the [select] of [Begin] takes, and what has happened
      outside while it waited (the lock attempt is running meanwhile) *)
  select_Begin : Ext -> BeginSelect * Ext;
  (** the randomised exponential interval handed out at the n-th retry *)
  interval : nat -> Ext -> Duration * Ext;
  DefaultMaxElapsedTime : Duration;
  (** what the other goroutines and processes do to the contents behind
      the pointers while this goroutine sleeps *)
  interleave : Duration -> gmap loc Config -> gmap loc Metadata -> Ext ->
               (gmap loc Config * gmap loc Metadata) * Ext
}.

(** ** The world *)

Record World : Type := mkWorld {
  ext : Ext;
  stores : gmap loc Datastore;
  objects : gmap loc Config;
  metas : gmap loc Metadata;
  now : Duration;                 (* the clock *)
  inbox : list Signal;            (* what the watch select will receive, in order *)
  ctx_done : bool;                (* the watch goroutine called cancel() *)
  goroutines : list GoTask;       (* started with go *)
  trace : list Event
}.

Definition set_ext (x : Ext) (w : World) : World :=
  mkWorld x (stores w) (objects w) (metas w) (now w) (inbox w) (ctx_done w) (goroutines w) (trace w).
Definition set_stores (s : gmap loc Datastore) (w : World) : World :=
  mkWorld (ext w) s (objects w) (metas w) (now w) (inbox w) (ctx_done w) (goroutines w) (trace w).
Definition set_objects (o : gmap loc Config) (w : World) : World :=
  mkWorld (ext w) (stores w) o (metas w) (now w) (inbox w) (ctx_done w) (goroutines w) (trace w).
Definition set_metas (m : gmap loc Metadata) (w : World) : World :=
  mkWorld (ext w) (stores w) (objects w) m (now w) (inbox w) (ctx_done w) (goroutines w) (trace w).
Definition set_now (t : Duration) (w : World) : World :=
  mkWorld (ext w) (stores w) (objects w) (metas w) t (inbox w) (ctx_done w) (goroutines w) (trace w).
Definition set_inbox (i : list Signal) (w : World) : World :=
  mkWorld (ext w) (stores w) (objects w) (metas w) (now w) i (ctx_done w) (goroutines w) (trace w).
Definition set_ctx_done (b : bool) (w : World) : World :=
  mkWorld (ext w) (stores w) (objects w) (metas w) (now w) (inbox w) b (goroutines w) (trace w).
Definition set_goroutines (g : list GoTask) (w : World) : World :=
  mkWorld (ext w) (stores w) (objects w) (metas w) (now w) (inbox w) (ctx_done w) g (trace w).
Definition set_trace (t : list Event) (w : World) : World :=
  mkWorld (ext w) (stores w) (objects w) (metas w) (now w) (inbox w) (ctx_done w) (goroutines w) t.

Definition set_localLock (m : RWMutex) (D : Datastore) : Datastore :=
  mkDatastore (kv D) (ctx D) m (object D) (meta D) (lockKey D) (listener D).
Definition set_object (o : Object) (D : Datastore) : Datastore :=
  mkDatastore (kv D) (ctx D) (localLock D) o (meta D) (lockKey D) (listener D).
Definition set_dirty (b : bool) (s : datastoreTransaction) : datastoreTransaction :=
  mkTransaction (Datastore_ s) (remoteLock s) b (id s).

(** ** The monad of goroutine code

    A piece of code run from a world either returns ([Ok]), waits for
    another party ([Parked]: a [select] with nothing ready, a mutex held
    by somebody else), panics ([Panicked]) or is cut off by the bound on
    the number of loop iterations ([Timeout]).  Every outcome carries the
    world reached. *)

Inductive outcome (A : Type) : Type :=
| Ok (a : A) (w : World)
| Parked (w : World)
| Panicked (w : World)
| Timeout (w : World).
Global Arguments Ok {A} a w.
Global Arguments Parked {A} w.
Global Arguments Panicked {A} w.
Global Arguments Timeout {A} w.

Definition M (A : Type) : Type := World -> outcome A.

Definition ret {A} (a : A) : M A := fun w => Ok a w.

Definition bind {A B} (m : M A) (k : A -> M B) : M B :=
  fun w =>
    match m w with
    | Ok a w' => k a w'
    | Parked w' => Parked w'
    | Panicked w' => Panicked w'
    | Timeout w' => Timeout w'
    end.

Definition final {A} (o : outcome A) : World :=
  match o with
  | Ok _ w | Parked w | Panicked w | Timeout w => w
  end.

End Cluster.

Declare Scope go_scope.
Delimit Scope go_scope with go.
Notation "x <- m ;; k" := (bind m (fun x => k))
  (at level 100, m at next level, right associativity) : go_scope.
Notation "m ;; k" := (bind m (fun _ => k))
  (at level 100, right associativity) : go_scope.
Local Open Scope go_scope.

Section Operations.

Context {Config Ext : Type}.

Local Abbreviation Listener := (@Listener Config Ext).
Local Abbreviation Locker := (@Locker Ext).
Local Abbreviation KvSource := (@KvSource Config Ext).
Local Abbreviation Datastore := (@Datastore Config Ext).
Local Abbreviation datastoreTransaction := (@datastoreTransaction Ext).
Local Abbreviation Runtime := (@Runtime Config Ext).
Local Abbreviation World := (@World Config Ext).
Local Abbreviation M := (@M Config Ext).

Variable rt : Runtime.

(** ** Primitive steps *)

Definition emit (e : Event) : M unit :=
  fun w => Ok tt (set_trace (trace w ++ [e]) w).

(** A call into the outside. *)
Definition external {A} (f : Ext -> A * Ext) : M A :=
  fun w => let r := f (ext w) in Ok (fst r) (set_ext (snd r) w).

Definition park {A} : M A := fun w => Parked w.
Definition panic {A} : M A := fun w => Panicked w.

(** The struct behind [d]. *)
Definition deref (d : loc) : M Datastore :=
  fun w => match stores w !! d with
           | Some D => Ok D w
           | None => Panicked w
           end.

(** Update of the struct behind [d]. *)
Definition assign (d : loc) (f : Datastore -> Datastore) : M unit :=
  D <- deref d;;
  fun w => Ok tt (set_stores (<[d := f D]> (stores w)) w).

(** A field of [d] that is set once by [NewDataStore]: kv, lockKey, listener. *)
Definition field {A} (f : Datastore -> A) (d : loc) : M A :=
  D <- deref d;; ret (f D).

(** [d.object] and [d.meta] as right-hand sides. *)
Definition read_object (d : loc) : M Object :=
  D <- deref d;; emit (EvRead CachedObject);; ret (object D).
Definition read_meta (d : loc) : M loc :=
  D <- deref d;; emit (EvRead CachedMeta);; ret (meta D).

(** [d.object = o] *)
Definition write_object (d : loc) (o : Object) : M unit :=
  emit (EvWrite CachedObject);; assign d (set_object o).

(** [meta.Lock], through the pointer. *)
Definition load_Lock (meta : loc) : M string :=
  emit (EvRead CachedMeta);;
  fun w => match metas w !! meta with
           | Some m => Ok (Lock m) w
           | None => Panicked w
           end.

(** *** sync.RWMutex on [d.localLock] *)

Definition RWMutex_Lock (d : loc) : M unit :=
  D <- deref d;;
  if writer (localLock D) || negb (Nat.eqb (readers (localLock D)) 0) then park
  else emit EvLock;; assign d (set_localLock (mkRWMutex true 0)).

Definition RWMutex_Unlock (d : loc) : M unit :=
  D <- deref d;;
  if writer (localLock D)
  then emit EvUnlock;; assign d (set_localLock (mkRWMutex false (readers (localLock D))))
  else panic.

Definition RWMutex_RLock (d : loc) : M unit :=
  D <- deref d;;
  if writer (localLock D) then park
  else emit EvRLock;; assign d (set_localLock (mkRWMutex false (S (readers (localLock D))))).

Definition RWMutex_RUnlock (d : loc) : M unit :=
  D <- deref d;;
  match readers (localLock D) with
  | O => panic
  | S n => emit EvRUnlock;; assign d (set_localLock (mkRWMutex (writer (localLock D)) n))
  end.

(** [defer cleanup] at the head of [body]: the result of [body] is computed
    first, then [cleanup] runs, on every return path. *)
Definition with_defer {A} (cleanup : M unit) (body : M A) : M A :=
  a <- body;; cleanup;; ret a.

(** *** The KV client *)

Definition kv_Watch (k : KvSource) (key : string) : M error :=
  emit (EvWatch key);; external (Watch k key).

Definition kv_LoadConfig_Object (k : KvSource) (target : Object) : M error :=
  emit (EvLoadConfig CachedObject target);;
  fun w => match objects w !! target with
           | Some c =>
               let r := LoadConfig_Object k c (ext w) in
               Ok (snd (fst r))
                  (set_trace (trace w ++ [EvWrite CachedObject])
                     (set_objects (<[target := fst (fst r)]> (objects w)) (set_ext (snd r) w)))
           | None => Panicked w
           end.

Definition kv_LoadConfig_Metadata (k : KvSource) (target : loc) : M error :=
  emit (EvLoadConfig CachedMeta target);;
  fun w => match metas w !! target with
           | Some m =>
               let r := LoadConfig_Metadata k m (ext w) in
               Ok (snd (fst r))
                  (set_trace (trace w ++ [EvWrite CachedMeta])
                     (set_metas (<[target := fst (fst r)]> (metas w)) (set_ext (snd r) w)))
           | None => Panicked w
           end.

Definition kv_StoreConfig (k : KvSource) (o : Object) : M error :=
  emit (EvStoreConfig o);;
  fun w => let r := StoreConfig k o (objects w) (ext w) in Ok (fst r) (set_ext (snd r) w).

Definition kv_NewLock (k : KvSource) (key : string) (opts : LockOptions) : M (Locker * error) :=
  emit (EvNewLock key opts);; external (NewLock k key opts).

(** [go func() { _, errLock = remoteLock.Lock(stopCh); cancel() }()]: the
    call is under way from here on; [remoteLock_Lock_returned] is its
    return, seen by the code only when the [select] takes the branch of
    the finished goroutine. *)
Definition go_remoteLock_Lock : M unit :=
  emit EvRemoteLock.

Definition remoteLock_Lock_returned (l : Locker) : M error :=
  external (Locker_Lock l).

(** [stopCh <- struct{}{}] on the unbuffered channel: it goes through when
    the other side receives, and blocks the goroutine for ever when nobody
    does. *)
Definition send_stop (heard : bool) : M unit :=
  if heard then emit EvStop else park.

Definition remoteLock_Unlock (l : Locker) : M error :=
  emit EvRemoteUnlock;; external (Locker_Unlock l).

Definition call_listener (f : Listener) (o : Object) : M error :=
  emit (EvListener o);;
  fun w => let r := f o (objects w) (ext w) in Ok (fst r) (set_ext (snd r) w).

(** *** log, time, go *)

Definition log_Errorf (format : string) (args : list LogArg) : M unit :=
  emit (EvErrorf format args).
Definition log_Debugf (format : string) (args : list LogArg) : M unit :=
  emit (EvDebugf format args).

(** [time.Sleep(dt)]: the clock advances (a negative duration returns at
    once) and the other goroutines run. *)
Definition time_Sleep (dt : Duration) : M unit :=
  fun w =>
    let r := interleave rt dt (objects w) (metas w) (ext w) in
    Ok tt (mkWorld (snd r) (stores w) (fst (fst r)) (snd (fst r)) (now w + Z.max 0 dt)
             (inbox w) (ctx_done w) (goroutines w) (trace w ++ [EvSleep (now w) dt])).

(** [go func() { ... }()] *)
Definition go (t : GoTask) : M unit :=
  fun w => Ok tt (set_goroutines (goroutines w ++ [t]) w).

(** ** Package backoff *)

(** Modelled from the spec: package backoff (the retry-with-notify wrapper
    [RetryNotify] and the policy [ExponentialBackOff]) is imported, its
    code is not under src/.  The spec describes it as an
    exponential-backoff retry-with-notify wrapper: the operation is run
    again after every error, each retry is reported to [notify] with its
    delay, and a policy whose [MaxElapsedTime] is set gives up once the
    time elapsed since the start exceeds it, which ends the retries with
    the last error.  [MaxElapsedTime = 0] means no bound.  The intervals
    themselves and the default bound are parameters ([interval],
    [DefaultMaxElapsedTime]). *)
Record ExponentialBackOff : Type := mkExponentialBackOff {
  MaxElapsedTime : Duration;
  startTime : Duration;
  retries : nat
}.

(** [b.MaxElapsedTime = t] *)
Definition set_MaxElapsedTime (t : Duration) (b : ExponentialBackOff) : ExponentialBackOff :=
  mkExponentialBackOff t (startTime b) (retries b).

(** Modelled from the spec: the constructor of the policy of package
    backoff, with the default bound. *)
Definition NewExponentialBackOff : M ExponentialBackOff :=
  fun w => Ok (mkExponentialBackOff (DefaultMaxElapsedTime rt) (now w) 0) w.

(** Modelled from the spec: [Reset] of package backoff starts the policy
    again, the elapsed time is counted from now. *)
Definition Reset (b : ExponentialBackOff) : M ExponentialBackOff :=
  fun w => Ok (mkExponentialBackOff (MaxElapsedTime b) (now w) 0) w.

(** Modelled from the spec: the time elapsed since the start of the
    policy of package backoff. *)
Definition GetElapsedTime (b : ExponentialBackOff) : M Duration :=
  fun w => Ok (now w - startTime b) w.

(** Modelled from the spec: [NextBackOff] of package backoff gives the
    next interval, or gives up ([None], the library's [Stop]) when a bound
    is set and the elapsed time exceeds it. *)
Definition NextBackOff (b : ExponentialBackOff) : M (option Duration * ExponentialBackOff) :=
  elapsed <- GetElapsedTime b;;
  if negb (MaxElapsedTime b =? 0) && (MaxElapsedTime b <? elapsed)
  then ret (None, b)
  else
    next <- external (interval rt (retries b));;
    ret (Some next, mkExponentialBackOff (MaxElapsedTime b) (startTime b) (S (retries b))).

(** Modelled from the spec: the loop of [RetryNotify] of package
    backoff.  The operation is run; on nil the wrapper returns nil; on an
    error the policy is asked for the next interval: when it gives up, the
    wrapper returns the error, otherwise [notify] is told the error and
    the interval, the goroutine sleeps and the operation is run again. *)
Fixpoint RetryNotify_loop (fuel : nat) (operation : M error) (b : ExponentialBackOff)
    (notify : string -> Duration -> M unit) : M error :=
  match fuel with
  | O => fun w => Timeout w
  | S fuel' =>
      err <- operation;;
      match err with
      | None => ret None
      | Some e =>
          r <- NextBackOff b;;
          match fst r with
          | None => ret err
          | Some next =>
              notify e next;;
              time_Sleep next;;
              RetryNotify_loop fuel' operation (snd r) notify
          end
      end
  end.

(** Modelled from the spec: [RetryNotify] of package backoff resets the
    policy and enters the loop. *)
Definition RetryNotify (fuel : nat) (operation : M error) (b : ExponentialBackOff)
    (notify : string -> Duration -> M unit) : M error :=
  b' <- Reset b;;
  RetryNotify_loop fuel operation b' notify.

(** ** cluster/datastore.go *)

(** *** watchChanges *)

(** The [select] of the watch goroutine: the next signal of the inbox;
    when nothing is left, [ctx.Done()] is ready if [cancel] was called,
    otherwise the goroutine waits.  The goroutine calls [cancel] only once
    [kvCh] is closed, that is when the watch of the store has ended: then
    nobody receives on [stopCh]. *)
Definition select_watch : M Signal :=
  fun w => match inbox w with
           | s :: rest => Ok s (set_inbox rest w)
           | [] => if ctx_done w then Ok SigCtxDoneUnheard w else Parked w
           end.

Definition cancel : M unit :=
  emit EvCancel;; fun w => Ok tt (set_ctx_done true w).

(** One turn of the [for] loop of the closure [operation] of
    [watchChanges].  [err] is the variable of [watchChanges] that the
    closure captures (the one assigned by [d.kv.Watch]); the [err] declared
    by [err := d.kv.LoadConfig(d.object)] is a new variable, in scope only
    after its declaration.  The result is [Some e] for [return e] and
    [None] when the loop goes round again. *)
Definition watch_iteration (d : loc) (err : error) : M (option error) :=
  sig <- select_watch;;
  match sig with
  | SigCtxDone =>
      send_stop true;;
      ret (Some None)
  | SigCtxDoneUnheard =>
      send_stop false;;
      ret (Some None)
  | SigKv ok =>
      if negb ok then
        cancel;;
        ret (Some err)
      else
        RWMutex_Lock d;;
        k <- field kv d;;
        o <- read_object d;;
        err <- kv_LoadConfig_Object k o;;
        match err with
        | Some _ =>
            RWMutex_Unlock d;;
            ret (Some err)
        | None =>
            m <- read_meta d;;
            err <- kv_LoadConfig_Metadata k m;;
            match err with
            | Some _ =>
                RWMutex_Unlock d;;
                ret (Some err)
            | None =>
                RWMutex_Unlock d;;
                l <- field listener d;;
                match l with
                | Some f =>
                    o <- read_object d;;
                    err <- call_listener f o;;
                    match err with
                    | Some e => log_Errorf "Error calling datastore listener: %s" [AString e]
                    | None => ret tt
                    end
                | None => ret tt
                end;;
                ret None
            end
        end
  end.

Fixpoint watch_loop (fuel : nat) (d : loc) (err : error) : M error :=
  match fuel with
  | O => fun w => Timeout w
  | S fuel' =>
      r <- watch_iteration d err;;
      match r with
      | Some e => ret e
      | None => watch_loop fuel' d err
      end
  end.

(** The closure [operation] of [watchChanges].  Every turn of its loop
    that does not return takes a signal from the inbox, so one turn more
    than the inbox holds is never reached. *)
Definition watch_operation (d : loc) (err : error) : M error :=
  fun w => watch_loop (S (length (inbox w))) d err w.

Definition watch_notify (err : string) (time : Duration) : M unit :=
  log_Errorf "Error in watch datastore: %+v, retrying in %s" [AString err; ADuration time].

(** The body of the goroutine that [watchChanges] starts. *)
Definition watch_go (fuel : nat) (t : GoTask) : M unit :=
  b <- NewExponentialBackOff;;
  err <- RetryNotify fuel (watch_operation (task_d t) (task_err t)) b watch_notify;;
  match err with
  | Some e => log_Errorf "Error in watch datastore: %v" [AString e]
  | None => ret tt
  end.

Definition watchChanges (d : loc) : M error :=
  k <- field kv d;;
  key <- field lockKey d;;
  err <- kv_Watch k key;;
  match err with
  | Some _ => ret err
  | None =>
      go (mkGoTask d err);;
      ret None
  end.

(** *** NewDataStore *)

Definition alloc_meta (m : Metadata) : M loc :=
  fun w => let l := fresh (dom (metas w)) in
           Ok l (set_metas (<[l := m]> (metas w)) w).

Definition alloc_store (D : Datastore) : M loc :=
  fun w => let l := fresh (dom (stores w)) in
           Ok l (set_stores (<[l := D]> (stores w)) w).

(** NewDataStore creates a Datastore *)
Definition NewDataStore (kvSource : KvSource) (ctx : Context) (object : Object)
    (listener : option Listener) : M (option loc * error) :=
  m <- alloc_meta (mkMetadata "");;
  datastore <- alloc_store
    {| kv := kvSource;
       ctx := ctx;
       meta := m;
       object := object;
       lockKey := Prefix kvSource +:+ "/lock";
       localLock := unlocked;
       listener := listener |};;
  err <- watchChanges datastore;;
  match err with
  | Some _ => ret (None, err)
  | None => ret (Some datastore, None)
  end.

(** *** get, Load, Get *)

Definition get (d : loc) : M loc :=
  RWMutex_RLock d;;
  with_defer (RWMutex_RUnlock d)
    (read_meta d).

(** Load load atomically a struct from the KV store *)
Definition Load (d : loc) : M (option Object * error) :=
  RWMutex_Lock d;;
  with_defer (RWMutex_Unlock d)
    (k <- field kv d;;
     o <- read_object d;;
     err <- kv_LoadConfig_Object k o;;
     match err with
     | Some _ => ret (None, err)
     | None =>
         o <- read_object d;;
         ret (Some o, None)
     end).

(** Get atomically a struct from the KV store *)
Definition Get (d : loc) : M Object :=
  RWMutex_RLock d;;
  with_defer (RWMutex_RUnlock d)
    (read_object d).

(** *** Begin *)

(** The closure [operation] of [Begin]: [d.get()] hands back the pointer,
    the field [Lock] is read through it afterwards. *)
Definition Begin_operation (d : loc) (id : string) : M error :=
  meta <- get d;;
  lock <- load_Lock meta;;
  if decide (lock = id) then ret None
  else ret (Some ("Object lock value: expected " +:+ id +:+ ", got " +:+ lock)).

Definition Begin_notify (err : string) (time : Duration) : M unit :=
  log_Errorf "Datastore sync error: %v, retrying in %s" [AString err; ADuration time].

(** The tail of [Begin], from the comment "we got the lock! Now make sure
    we are synced with KV store" to the end of the function. *)
Definition Begin_sync (fuel : nat) (d : loc) (remoteLock : Locker) (id : string)
    : M (option datastoreTransaction * error) :=
  b <- NewExponentialBackOff;;
  let ebo := set_MaxElapsedTime (60 * Second) b in
  err <- RetryNotify fuel (Begin_operation d id) ebo Begin_notify;;
  match err with
  | Some e => ret (None, Some ("Datastore cannot sync: " +:+ e))
  | None =>
      (* we synced with KV store, we can now return Setter *)
      ret (Some {| Datastore_ := d; remoteLock := remoteLock; dirty := false; id := id |},
           None)
  end.

(** Begin creates a transaction with the KV store.  The goroutine that
    calls [remoteLock.Lock] and the [select] that waits for it are the
    scheduler's: [select_Begin] says which case is taken.  The result of
    the inner [match] is [Some r] for [return r] and [None] when control
    falls out of the [select]. *)
Definition Begin (fuel : nat) (d : loc) : M (option datastoreTransaction * error) :=
  id <- external (uuid_NewV4 rt);;
  log_Debugf "Transaction %s begins" [AString id];;
  k <- field kv d;;
  key <- field lockKey d;;
  r <- kv_NewLock k key {| TTL := 20 * Second; Value := String.list_byte_of_string id |};;
  let remoteLock := fst r in
  match snd r with
  | Some e => ret (None, Some e)
  | None =>
      go_remoteLock_Lock;;
      sel <- external (select_Begin rt);;
      early <- match sel with
               | LockGoroutineDone =>
                   errLock <- remoteLock_Lock_returned remoteLock;;
                   match errLock with
                   | Some _ => ret (Some (None, errLock))
                   | None => ret None
                   end
               | ChildCtxDone => ret None
               | LifetimeCtxDone e =>
                   send_stop true;;
                   ret (Some (None, e))
               | LifetimeCtxDoneUnheard e =>
                   send_stop false;;
                   ret (Some (None, e))
               | NothingReady => park
               end;;
      match early with
      | Some out => ret out
      | None => Begin_sync fuel d remoteLock id
      end
  end.

(** *** Commit *)

(** Commit allows to set an object in the KV store.  The transaction is
    passed and returned by value: the second component of the result is
    the struct behind [s] after the call. *)
Definition Commit (s : datastoreTransaction) (object : Object)
    : M (error * datastoreTransaction) :=
  let d := Datastore_ s in
  RWMutex_Lock d;;
  with_defer (RWMutex_Unlock d)
    (if dirty s then
       ret (Some "Transaction already used. Please begin a new one.", s)
     else
       k <- field kv d;;
       err <- kv_StoreConfig k object;;
       match err with
       | Some _ => ret (err, s)
       | None =>
           err <- remoteLock_Unlock (remoteLock s);;
           match err with
           | Some _ => ret (err, s)
           | None =>
               write_object d object;;
               let s := set_dirty true s in
               log_Debugf "Transaction commited %s" [AString (id s)];;
               ret (None, s)
           end
       end).

End Operations.

(** ** Reading traces *)

(** What a goroutine holds of the guard after an event. *)
Definition guard_step (g : RWMutex) (e : Event) : RWMutex :=
  match e with
  | EvLock => mkRWMutex true (readers g)
  | EvUnlock => mkRWMutex false (readers g)
  | EvRLock => mkRWMutex (writer g) (S (readers g))
  | EvRUnlock => mkRWMutex (writer g) (Nat.pred (readers g))
  | _ => g
  end.

(** Is the access [e] covered by the hold [g]: a read needs a read or a
    write hold, a write needs the write hold. *)
Definition covered (g : RWMutex) (e : Event) : bool :=
  match e with
  | EvRead _ => writer g || negb (Nat.eqb (readers g) 0)
  | EvWrite _ => writer g
  | _ => true
  end.

(** Every access to the cached Object and Metadata in [tr] happens under
    the guard, for a goroutine that holds [g] when [tr] starts. *)
Fixpoint guarded (g : RWMutex) (tr : list Event) : bool :=
  match tr with
  | [] => true
  | e :: tr' => covered g e && guarded (guard_step g e) tr'
  end.

Definition is_external (e : Event) : bool :=
  match e with
  | EvWatch _ | EvLoadConfig _ _ | EvStoreConfig _ | EvNewLock _ _
  | EvRemoteLock | EvRemoteUnlock => true
  | _ => false
  end.

Definition is_listener (e : Event) : bool :=
  match e with EvListener _ => true | _ => false end.

Definition is_Errorf (e : Event) : bool :=
  match e with EvErrorf _ _ => true | _ => false end.

(** The sleeps of [tr] all start at most [bound] after [start]. *)
Definition sleeps_within (start bound : Duration) (tr : list Event) : Prop :=
  Forall (fun e => match e with
                   | EvSleep at_ _ => at_ - start <= bound
                   | _ => True
                   end) tr.

(** The events of a reload of the watch goroutine that goes through:
    both loads, inside the write hold.  [o] and [m] are the cached
    pointers. *)
Definition reload_events (o : Object) (m : loc) : list Event :=
  [EvLock;
   EvRead CachedObject; EvLoadConfig CachedObject o; EvWrite CachedObject;
   EvRead CachedMeta; EvLoadConfig CachedMeta m; EvWrite CachedMeta;
   EvUnlock].

(** The error of a poll of [Begin] that finds [lock] instead of [id]. *)
Definition sync_error (id lock : string) : string :=
  "Object lock value: expected " +:+ id +:+ ", got " +:+ lock.

(** From [w] to [w'] no Datastore has disappeared, and none has a new
    client, lock key, Metadata pointer or listener. *)
Definition same_client {Config Ext : Type} (w w' : @World Config Ext) : Prop :=
  forall d D, stores w !! d = Some D ->
    exists D', stores w' !! d = Some D' /\ kv D' = kv D /\ lockKey D' = lockKey D /\
               meta D' = meta D /\ listener D' = listener D.

(** ** Symbolic execution *)

Ltac unfold_ops :=
  cbv beta iota zeta delta
      [bind ret emit external park panic deref assign field read_object read_meta
       write_object load_Lock RWMutex_Lock RWMutex_Unlock RWMutex_RLock RWMutex_RUnlock
       with_defer kv_Watch kv_LoadConfig_Object kv_LoadConfig_Metadata kv_StoreConfig
       kv_NewLock go_remoteLock_Lock remoteLock_Lock_returned send_stop
       remoteLock_Unlock call_listener log_Errorf log_Debugf
       time_Sleep go select_watch cancel NewExponentialBackOff Reset GetElapsedTime
       alloc_meta alloc_store].

Ltac wsimpl :=
  cbn [ext stores objects metas now inbox ctx_done goroutines trace
       set_ext set_stores set_objects set_metas set_now set_inbox set_ctx_done
       set_goroutines set_trace
       kv ctx localLock object meta lockKey listener set_localLock set_object
       Datastore_ remoteLock dirty id set_dirty
       MaxElapsedTime startTime retries set_MaxElapsedTime
       task_d task_err
       writer readers unlocked orb negb andb Nat.eqb fst snd final].

Ltac wsimpl_in H :=
  cbn [ext stores objects metas now inbox ctx_done goroutines trace
       set_ext set_stores set_objects set_metas set_now set_inbox set_ctx_done
       set_goroutines set_trace
       kv ctx localLock object meta lockKey listener set_localLock set_object
       Datastore_ remoteLock dirty id set_dirty
       MaxElapsedTime startTime retries set_MaxElapsedTime
       task_d task_err
       writer readers unlocked orb negb andb Nat.eqb fst snd final] in H.

(** One round: unfold the steps, project the worlds, look up what was
    just inserted, and use the facts of the context on what is stuck. *)
Ltac exec_with tac :=
  repeat first
    [ progress (unfold_ops; wsimpl)
    | rewrite lookup_insert_eq
    | tac ].

Ltac use_hyps :=
  idtac;
  match goal with
  | H : ?x = _ |- context [?x] => rewrite H
  end.

Ltac exec := exec_with use_hyps.

Ltac tidy_trace := rewrite <- ?app_assoc; cbn [app].

(** Case analysis on the result that the goal is waiting for. *)
Ltac case_result :=
  match goal with
  | |- context [match ?x with Some _ => _ | None => _ end] => destruct x eqn:?
  end.

(** ** A small store to run the code on

    The contents of an Object are a string; the outside holds the stored
    value, the value of the lock key, and a script of faults: every call
    that can fail takes the next entry of the script and fails when it is
    [true]. *)
Module Toy.

Record outside : Type := mkExt {
  stored : string;
  holder : string;
  faults : list bool
}.

Definition fault (x : outside) : bool * outside :=
  match faults x with
  | b :: rest => (b, mkExt (stored x) (holder x) rest)
  | [] => (false, x)
  end.

Definition failing (msg : string) (x : outside) : error * outside :=
  let r := fault x in
  (if fst r then Some msg else None, snd r).

Definition locker (value : string) : @Locker outside :=
  {| Locker_Lock := fun x =>
       let r := fault x in
       if fst r then (Some "lock: refused", snd r)
       else (None, mkExt (stored (snd r)) value (faults (snd r)));
     Locker_Unlock := fun x =>
       let r := fault x in
       if fst r then (Some "unlock: lost", snd r)
       else (None, mkExt (stored (snd r)) "" (faults (snd r))) |}.

Definition kvSource : @KvSource string outside :=
  {| Prefix := "traefik";
     Watch := fun _ => failing "watch: unavailable";
     LoadConfig_Object := fun c x =>
       let r := fault x in
       if fst r then ((c, Some "load: unavailable"), snd r)
       else ((stored (snd r), None), snd r);
     LoadConfig_Metadata := fun m x =>
       let r := fault x in
       if fst r then ((m, Some "load: unavailable"), snd r)
       else ((mkMetadata (holder (snd r)), None), snd r);
     StoreConfig := fun o objs x =>
       let r := fault x in
       if fst r then (Some "store: unavailable", snd r)
       else (None, mkExt (default "" (objs !! o)) (holder (snd r)) (faults (snd r)));
     NewLock := fun _ opts x =>
       let r := fault x in
       (locker (String.string_of_list_byte (Value opts)),
        if fst r then Some "lock: unavailable" else None, snd r) |}.

Definition on_change : @Listener string outside :=
  fun _ _ => failing "listener: rejected".

(** While the caller sleeps the watch goroutine catches up (every cached
    Metadata gets the value of the lock key), or nothing happens. *)
Definition catching_up (dt : Duration) (objs : gmap loc string) (ms : gmap loc Metadata)
    (x : outside) : (gmap loc string * gmap loc Metadata) * outside :=
  ((objs, (fun _ => mkMetadata (holder x)) <$> ms), x).

Definition stuck (dt : Duration) (objs : gmap loc string) (ms : gmap loc Metadata)
    (x : outside) : (gmap loc string * gmap loc Metadata) * outside :=
  ((objs, ms), x).

Definition runtime (others : Duration -> gmap loc string -> gmap loc Metadata -> outside ->
                             (gmap loc string * gmap loc Metadata) * outside)
    : @Runtime string outside :=
  {| uuid_NewV4 := fun x => ("6ba7b810-9dad-41d1-80b4-00c04fd430c8", x);
     select_Begin := fun x => (LockGoroutineDone, x);
     interval := fun n x => (500000000 * (1 + Z.of_nat n), x);
     DefaultMaxElapsedTime := 900 * Second;
     interleave := others |}.

(** The process before [NewDataStore]: two user structs are allocated. *)
Definition boot (script : list bool) : @World string outside :=
  {| ext := mkExt "v0" "" script;
     stores := ∅;
     objects := {[ 1%positive := "v0"; 2%positive := "v1" ]};
     metas := ∅;
     now := 0;
     inbox := [];
     ctx_done := false;
     goroutines := [];
     trace := [] |}.

(** The struct that [NewDataStore] builds around the first of them. *)
Definition datastore (l : option Listener) : @Datastore string outside :=
  {| kv := kvSource;
     ctx := 0%nat;
     localLock := unlocked;
     object := 1%positive;
     meta := 1%positive;
     lockKey := "traefik/lock";
     listener := l |}.

(** The process once [NewDataStore] has returned, with the signals the
    watch goroutine is going to receive. *)
Definition world (l : option Listener) (script : list bool) (signals : list Signal)
    : @World string outside :=
  {| ext := mkExt "v0" "" script;
     stores := {[ 1%positive := datastore l ]};
     objects := {[ 1%positive := "v0"; 2%positive := "v1" ]};
     metas := {[ 1%positive := mkMetadata "" ]};
     now := 0;
     inbox := signals;
     ctx_done := false;
     goroutines := [mkGoTask 1%positive None];
     trace := [EvWatch "traefik/lock"] |}.

Definition tx (used : bool) : @datastoreTransaction outside :=
  {| Datastore_ := 1%positive;
     remoteLock := locker "6ba7b810-9dad-41d1-80b4-00c04fd430c8";
     dirty := used;
     id := "6ba7b810-9dad-41d1-80b4-00c04fd430c8" |}.

End Toy.

(** ** A client whose loads never fail, and a cancelled lifetime *)
Module Steady.

Definition kvSource : @KvSource string Toy.outside :=
  {| Prefix := "traefik";
     Watch := fun _ x => (None, x);
     LoadConfig_Object := fun _ x => ((Toy.stored x, None), x);
     LoadConfig_Metadata := fun _ x => ((mkMetadata (Toy.holder x), None), x);
     StoreConfig := StoreConfig Toy.kvSource;
     NewLock := NewLock Toy.kvSource |}.

Definition datastore (l : option Listener) : @Datastore string Toy.outside :=
  {| kv := kvSource;
     ctx := 0%nat;
     localLock := unlocked;
     object := 1%positive;
     meta := 1%positive;
     lockKey := "traefik/lock";
     listener := l |}.

Definition world (l : option Listener) (signals : list Signal)
    : @World string Toy.outside :=
  {| ext := Toy.mkExt "v2" "someone" [];
     stores := {[ 1%positive := datastore l ]};
     objects := {[ 1%positive := "v0"; 2%positive := "v1" ]};
     metas := {[ 1%positive := mkMetadata "" ]};
     now := 0;
     inbox := signals;
     ctx_done := false;
     goroutines := [mkGoTask 1%positive None];
     trace := [EvWatch "traefik/lock"] |}.

(** The lifetime context is done when [Begin] gets to its [select]. *)
Definition cancelled : @Runtime string Toy.outside :=
  {| uuid_NewV4 := fun x => ("6ba7b810-9dad-41d1-80b4-00c04fd430c8", x);
     select_Begin := fun x => (LifetimeCtxDone (Some "context canceled"), x);
     interval := fun n x => (500000000 * (1 + Z.of_nat n), x);
     DefaultMaxElapsedTime := 900 * Second;
     interleave := Toy.stuck |}.

(** The same, once the lock attempt has returned: nobody is left to
    receive on [stopCh]. *)
Definition cancelled_late : @Runtime string Toy.outside :=
  {| uuid_NewV4 := fun x => ("6ba7b810-9dad-41d1-80b4-00c04fd430c8", x);
     select_Begin := fun x => (LifetimeCtxDoneUnheard (Some "context canceled"), x);
     interval := fun n x => (500000000 * (1 + Z.of_nat n), x);
     DefaultMaxElapsedTime := 900 * Second;
     interleave := Toy.stuck |}.

(** The cache of the small store once it has caught up with a lock
    granted to the id of the run-time. *)
Definition synced : @World string Toy.outside :=
  set_metas {[ 1%positive := mkMetadata "6ba7b810-9dad-41d1-80b4-00c04fd430c8" ]}
    (Toy.world None [] []).

End Steady.

(** Case analysis on whatever the goal is stuck on. *)
Ltac case_stuck :=
  match goal with
  | |- context [match ?x with _ => _ end] =>
      lazymatch x with
      | context [match _ with _ => _ end] => fail
      | _ => destruct x eqn:?
      end
  end.

(** [same_client] between a world and one where the struct at [d] was
    written to. *)
Ltac client d :=
  let d0 := fresh "d" in
  let D0 := fresh "D" in
  let H0 := fresh "H" in
  intros d0 D0 H0; wsimpl;
  destruct (decide (d = d0)) as [<-|?];
  [ rewrite ?lookup_insert_eq;
    first [ by eauto 10
          | simplify_eq; eexists; split; [reflexivity|done] ]
  | rewrite ?lookup_insert_ne by done; by eauto 10 ].

Section Properties.

Context {Config Ext : Type}.

Local Abbreviation Datastore := (@Datastore Config Ext).
Local Abbreviation datastoreTransaction := (@datastoreTransaction Ext).
Local Abbreviation Runtime := (@Runtime Config Ext).
Local Abbreviation World := (@World Config Ext).
Local Abbreviation M := (@M Config Ext).

Variable rt : Runtime.

Lemma set_localLock_id (D : Datastore) : set_localLock (localLock D) D = D.
Proof. by destruct D. Qed.

Lemma relock_stores (d : loc) (D : Datastore) (g : RWMutex) (s : gmap loc Datastore) :
  s !! d = Some D -> localLock D = unlocked ->
  <[d := set_localLock (mkRWMutex false 0) (set_localLock g D)]> (<[d := set_localLock g D]> s) = s.
Proof.
  intros Hd Hl. rewrite insert_insert_eq.
  apply insert_id. rewrite Hd. f_equal.
  destruct D; cbn in *. by rewrite Hl.
Qed.

(** *** Commit *)

(** A transaction that is not used yet always gets as far as the store. *)
Lemma Commit_fresh_reaches_store (s : datastoreTransaction) (v : Object) (w : World) D :
  stores w !! Datastore_ s = Some D ->
  localLock D = unlocked ->
  dirty s = false ->
  exists evs, trace (final (Commit s v w)) = trace w ++ EvLock :: EvStoreConfig v :: evs.
Proof.
  intros Hd Hl Hdirty. unfold Commit.
  exec.
  case_result; exec; [tidy_trace; eauto|].
  case_result; exec; tidy_trace; eauto.
Qed.

(** What a successful [Commit] has done. *)
Lemma Commit_success_inv (s s' : datastoreTransaction) (v : Object) (w w' : World) :
  Commit s v w = Ok (None, s') w' ->
  exists D,
    stores w !! Datastore_ s = Some D /\ localLock D = unlocked /\
    dirty s = false /\ s' = set_dirty true s /\
    stores w' = <[Datastore_ s := set_object v D]> (stores w).
Proof.
  unfold Commit. exec.
  destruct (stores w !! Datastore_ s) as [D|] eqn:Hd; exec; [|done].
  destruct D as [k c [[] [|n]] o m key l]; exec; try done.
  destruct (dirty s) eqn:Hdirty; exec; [done|].
  case_result; exec; [done|].
  case_result; exec; [done|].
  intros [= <- <-]. eexists. repeat split; try done.
  wsimpl. by rewrite !insert_insert_eq.
Qed.

Lemma Commit_success_dirty (s s' : datastoreTransaction) (v : Object) (w w' : World) :
  Commit s v w = Ok (None, s') w' -> dirty s' = true.
Proof.
  intros H. apply Commit_success_inv in H as (D & _ & _ & _ & -> & _). done.
Qed.

(** *** Get *)

Lemma Get_cached (d : loc) (w : World) (D : Datastore) :
  stores w !! d = Some D ->
  writer (localLock D) = false ->
  exists w', Get d w = Ok (object D) w' /\
             trace w' = trace w ++ [EvRLock; EvRead CachedObject; EvRUnlock] /\
             ext w' = ext w /\ stores w' = stores w /\
             objects w' = objects w /\ metas w' = metas w.
Proof.
  intros Hd Hw. unfold Get. exec. eexists. split; [reflexivity|].
  wsimpl. tidy_trace. repeat split.
  rewrite insert_insert_eq. apply insert_id. rewrite Hd. f_equal.
  destruct D as [k c [wr n] o m key l]; cbn in *. by subst.
Qed.

Example Toy_NewDataStore :
  NewDataStore Toy.kvSource 0%nat 1%positive None (Toy.boot []) =
  Ok (Some 1%positive, None) (Toy.world None [] []).
Proof. vm_compute. reflexivity. Qed.

Lemma Get_returns (d : loc) (w : World) (D : Datastore) :
  stores w !! d = Some D ->
  writer (localLock D) = false ->
  exists w', Get d w = Ok (object D) w'.
Proof.
  intros Hd Hw. destruct (Get_cached d w D Hd Hw) as (w' & HG & _). eauto.
Qed.

(** C2. For a Transaction that is not used yet, if the persistence step
    of [Commit newObject] fails with [e], then [Commit] returns [e]; the only
    calls made are the guard's and the one [StoreConfig] (the remote lock
    is not unlocked: no [EvRemoteUnlock], and the outside is left as the
    failed [StoreConfig] left it); the Datastore, with its cached Object,
    is unchanged; the transaction comes back as it was, with [dirty]
    unset, and a further [Commit] on it gets to the store again. *)
Theorem Commit_persistence_failure (s : datastoreTransaction) (newObject : Object)
    (w : World) (D : Datastore) (e : string) :
  stores w !! Datastore_ s = Some D ->
  localLock D = unlocked ->
  dirty s = false ->
  fst (StoreConfig (kv D) newObject (objects w) (ext w)) = Some e ->
  exists w',
    Commit s newObject w = Ok (Some e, s) w' /\
    trace w' = trace w ++ [EvLock; EvStoreConfig newObject; EvUnlock] /\
    ext w' = snd (StoreConfig (kv D) newObject (objects w) (ext w)) /\
    stores w' = stores w /\ objects w' = objects w /\ metas w' = metas w /\
    forall object2, exists evs,
      trace (final (Commit s object2 w')) = trace w' ++ EvLock :: EvStoreConfig object2 :: evs.
Proof.
  intros Hd Hl Hdirty Hst.
  assert (Hs : forall w1 : World,
             stores w1 = <[Datastore_ s := set_localLock (mkRWMutex false 0)
                                             (set_localLock (mkRWMutex true 0) D)]>
                           (<[Datastore_ s := set_localLock (mkRWMutex true 0) D]> (stores w)) ->
             stores w1 = stores w).
  { intros w1 ->. by apply relock_stores. }
  eexists. split; [unfold Commit; exec; reflexivity|].
  wsimpl. tidy_trace. repeat split.
  - by apply relock_stores.
  - intros object2. eapply Commit_fresh_reaches_store; [|exact Hl|exact Hdirty].
    rewrite Hs; [exact Hd|reflexivity].
Qed.

(** C7. If the store write of [newObject] succeeds and the unlock of the
    remote lock that follows fails with [e], then [Commit] returns [e];
    the new value has been stored (the trace has the [StoreConfig] call,
    the outside is what the store and the unlock made of it); the
    Datastore with its cached Object is unchanged, so that [Get] still
    returns the Object of before the call; [dirty] stays unset and a
    further [Commit] gets to the store again. *)
Theorem Commit_unlock_failure (s : datastoreTransaction) (newObject : Object)
    (w : World) (D : Datastore) (e : string) :
  stores w !! Datastore_ s = Some D ->
  localLock D = unlocked ->
  dirty s = false ->
  fst (StoreConfig (kv D) newObject (objects w) (ext w)) = None ->
  fst (Locker_Unlock (remoteLock s) (snd (StoreConfig (kv D) newObject (objects w) (ext w)))) = Some e ->
  exists w',
    Commit s newObject w = Ok (Some e, s) w' /\
    trace w' = trace w ++ [EvLock; EvStoreConfig newObject; EvRemoteUnlock; EvUnlock] /\
    ext w' = snd (Locker_Unlock (remoteLock s)
                    (snd (StoreConfig (kv D) newObject (objects w) (ext w)))) /\
    stores w' = stores w /\ objects w' = objects w /\ metas w' = metas w /\
    (exists w'', Get (Datastore_ s) w' = Ok (object D) w'') /\
    forall object2, exists evs,
      trace (final (Commit s object2 w')) = trace w' ++ EvLock :: EvStoreConfig object2 :: evs.
Proof.
  intros Hd Hl Hdirty Hst Hun.
  assert (Hs : forall w1 : World,
             stores w1 = <[Datastore_ s := set_localLock (mkRWMutex false 0)
                                             (set_localLock (mkRWMutex true 0) D)]>
                           (<[Datastore_ s := set_localLock (mkRWMutex true 0) D]> (stores w)) ->
             stores w1 !! Datastore_ s = Some D).
  { intros w1 ->. by rewrite relock_stores. }
  eexists. split; [unfold Commit; exec; reflexivity|].
  wsimpl. tidy_trace. repeat split.
  - by apply relock_stores.
  - eapply Get_returns; [apply Hs; reflexivity|by rewrite Hl].
  - intros object2. eapply Commit_fresh_reaches_store; [|exact Hl|exact Hdirty].
    apply Hs. reflexivity.
Qed.

(** C4. On a Transaction that a successful [Commit] has handed back,
    every further [Commit] returns the "already used" error and does
    nothing else: apart from taking and releasing the guard there is no
    call (no store write, no unlock of the remote lock), the outside, the
    Datastore with its cached Object and the heaps are unchanged, and the
    transaction comes back with [dirty] still set. *)
Theorem Commit_twice (s0 s : datastoreTransaction) (object0 newObject : Object)
    (w0 w1 w : World) (D : Datastore) :
  Commit s0 object0 w0 = Ok (None, s) w1 ->
  stores w !! Datastore_ s = Some D ->
  localLock D = unlocked ->
  exists w',
    Commit s newObject w =
      Ok (Some "Transaction already used. Please begin a new one.", s) w' /\
    dirty s = true /\
    trace w' = trace w ++ [EvLock; EvUnlock] /\
    ext w' = ext w /\
    stores w' = stores w /\ objects w' = objects w /\ metas w' = metas w.
Proof.
  intros H0 Hd Hl.
  pose proof (Commit_success_dirty _ _ _ _ _ H0) as Hdirty.
  eexists. split; [unfold Commit; exec; reflexivity|].
  wsimpl. tidy_trace. repeat split; [done|].
  by apply relock_stores.
Qed.

(** *** The synchronisation barrier of Begin *)

(** One poll: the pointer is read under a read hold, the field through it
    afterwards; nothing but the trace changes. *)
Lemma Begin_operation_inv (d : loc) (id : string) (w w' : World) (r : error) :
  Begin_operation d id w = Ok r w' ->
  exists D m,
    stores w !! d = Some D /\ metas w !! meta D = Some m /\
    r = (if decide (Lock m = id) then None else Some (sync_error id (Lock m))) /\
    w' = set_trace (trace w ++ [EvRLock; EvRead CachedMeta; EvRUnlock; EvRead CachedMeta]) w.
Proof.
  unfold Begin_operation, get. exec.
  destruct (stores w !! d) as [D|] eqn:Hd; exec; [|done].
  destruct D as [k c [[] n] o mp key l]; exec; [done|].
  destruct (metas w !! mp) as [m|] eqn:Hm; exec; [|done].
  intros H. exists (mkDatastore k c (mkRWMutex false n) o mp key l), m.
  split; [done|]. split; [done|].
  assert (Hst : <[d := mkDatastore k c (mkRWMutex false n) o mp key l]>
                  (<[d := mkDatastore k c (mkRWMutex false (S n)) o mp key l]> (stores w))
                = stores w).
  { rewrite insert_insert_eq. by apply insert_id. }
  unfold set_localLock in H. wsimpl_in H. rewrite Hst in H.
  revert H. tidy_trace. destruct w. wsimpl.
  destruct (decide (Lock m = id)); intros [= <- <-]; done.
Qed.

Lemma Begin_operation_trace (d : loc) (id : string) (w : World) :
  exists evs,
    trace (final (Begin_operation d id w)) = trace w ++ evs /\
    forall start bound, sleeps_within start bound evs.
Proof.
  unfold Begin_operation, get. exec.
  destruct (stores w !! d) as [D|] eqn:Hd; exec;
    [|exists []; split; [by rewrite app_nil_r|constructor]].
  destruct D as [k c [[] n] o mp key l]; exec;
    [exists []; split; [by rewrite app_nil_r|constructor]|].
  destruct (metas w !! mp) as [m|] eqn:Hm; exec.
  - destruct (decide (Lock m = id)); exec; tidy_trace;
      (eexists; split; [reflexivity|intros; repeat constructor]).
  - tidy_trace. eexists; split; [reflexivity|intros; repeat constructor].
Qed.

Lemma Begin_operation_no_timeout (d : loc) (id : string) (w w' : World) :
  Begin_operation d id w <> Timeout w'.
Proof.
  unfold Begin_operation, get. exec.
  destruct (stores w !! d) as [D|] eqn:Hd; exec; [|done].
  destruct D as [k c [[] n] o mp key l]; exec; [done|].
  destruct (metas w !! mp) as [m|] eqn:Hm; exec; [|done].
  destruct (decide (Lock m = id)); done.
Qed.

(** One turn of the retry loop. *)
Lemma RetryNotify_loop_step (fuel : nat) (operation : M error) (b : ExponentialBackOff)
    (notify : string -> Duration -> M unit) (w : World) :
  RetryNotify_loop rt (S fuel) operation b notify w =
  match operation w with
  | Ok None w1 => Ok None w1
  | Ok (Some e) w1 =>
      if negb (MaxElapsedTime b =? 0) && (MaxElapsedTime b <? now w1 - startTime b)
      then Ok (Some e) w1
      else
        let next := fst (interval rt (retries b) (ext w1)) in
        (notify e next;;
         time_Sleep rt next;;
         RetryNotify_loop rt fuel operation
           (mkExponentialBackOff (MaxElapsedTime b) (startTime b) (S (retries b))) notify)
          (set_ext (snd (interval rt (retries b) (ext w1))) w1)
  | Parked w1 => Parked w1
  | Panicked w1 => Panicked w1
  | Timeout w1 => Timeout w1
  end.
Proof.
  cbn [RetryNotify_loop]. unfold bind at 1.
  destruct (operation w) as [[e|] w1| | |]; try reflexivity.
  cbv beta iota zeta delta [bind NextBackOff GetElapsedTime ret external].
  destruct (negb (MaxElapsedTime b =? 0) && (MaxElapsedTime b <? now w1 - startTime b));
    reflexivity.
Qed.

Lemma sleeps_within_app (start bound : Duration) (l1 l2 : list Event) :
  sleeps_within start bound l1 -> sleeps_within start bound l2 ->
  sleeps_within start bound (l1 ++ l2).
Proof. unfold sleeps_within. intros. by apply Forall_app. Qed.

(** The poll of [Begin] under a policy bounded to 60 seconds. *)
Lemma poll_spec (d : loc) (id : string) (fuel : nat) :
  forall (w : World) (b : ExponentialBackOff),
    MaxElapsedTime b = 60 * Second ->
    let o := RetryNotify_loop rt fuel (Begin_operation d id) b Begin_notify w in
    (forall w', o = Ok None w' ->
       exists D m, stores w' !! d = Some D /\ metas w' !! meta D = Some m /\ Lock m = id) /\
    (forall e w', o = Ok (Some e) w' ->
       exists lock, lock <> id /\ e = sync_error id lock /\
                    60 * Second < now w' - startTime b) /\
    (exists evs, trace (final o) = trace w ++ evs /\
                 sleeps_within (startTime b) (60 * Second) evs).
Proof.
  induction fuel as [|fuel IH]; intros w b Hmax; cbn zeta.
  { cbn. split; [done|]. split; [done|]. exists [].
    split; [by rewrite app_nil_r|constructor]. }
  rewrite RetryNotify_loop_step.
  destruct (Begin_operation_trace d id w) as (evs0 & Htr0 & Hsl0).
  destruct (Begin_operation d id w) as [r w1| w1 | w1 | w1] eqn:Hop;
    try (split; [done|]; split; [done|]; exists evs0; split; [exact Htr0|apply Hsl0]).
  cbn [final] in Htr0.
  apply Begin_operation_inv in Hop as (D & m & Hd & Hm & -> & Hw1).
  destruct (decide (Lock m = id)) as [Heq|Hne].
  { split; [|split; [done|exists evs0; split; [exact Htr0|apply Hsl0]]].
    intros w' [= <-]. exists D, m. subst w1. wsimpl. done. }
  rewrite Hmax.
  destruct (negb (60 * Second =? 0) && (60 * Second <? now w1 - startTime b)) eqn:Hc.
  { split; [done|]. split; [|exists evs0; split; [exact Htr0|apply Hsl0]].
    intros e w' [= <- <-]. exists (Lock m). split; [done|]. split; [done|].
    apply andb_true_iff in Hc as [_ Hc]. by apply Z.ltb_lt in Hc. }
  assert (Hle : now w1 - startTime b <= 60 * Second).
  { apply andb_false_iff in Hc as [Hc|Hc]; [done|]. by apply Z.ltb_ge in Hc. }
  cbn zeta. unfold Begin_notify. unfold_ops. wsimpl.
  match goal with
  | |- context [RetryNotify_loop rt fuel _ ?b' _ ?w2] =>
      destruct (IH w2 b' eq_refl) as (HA & HB & evs' & Htr' & Hsl')
  end.
  split; [exact HA|]. split; [exact HB|].
  eexists (evs0 ++ _ :: _ :: evs'). split.
  { etransitivity; [exact Htr'|]. wsimpl. rewrite Htr0. rewrite <- !app_assoc. reflexivity. }
  apply sleeps_within_app; [apply Hsl0|].
  constructor; [done|]. constructor; [exact Hle|exact Hsl'].
Qed.

(** The poll comes to an end: with intervals of at least [delta], the
    bound of 60 seconds is passed after finitely many sleeps. *)
Lemma poll_terminates (d : loc) (id : string) (delta : Duration) :
  0 < delta ->
  (forall n x, delta <= fst (interval rt n x)) ->
  forall (fuel : nat) (w : World) (b : ExponentialBackOff),
    MaxElapsedTime b = 60 * Second ->
    (0 < fuel)%nat ->
    60 * Second - (now w - startTime b) < (Z.of_nat fuel - 1) * delta ->
    forall w', RetryNotify_loop rt fuel (Begin_operation d id) b Begin_notify w <> Timeout w'.
Proof.
  intros Hpos Hint. induction fuel as [|fuel IH]; intros w b Hmax Hnz Hfuel w'.
  { lia. }
  rewrite RetryNotify_loop_step.
  destruct (Begin_operation d id w) as [r w1| w1 | w1 | w1] eqn:Hop; try done.
  2:{ by apply Begin_operation_no_timeout in Hop. }
  apply Begin_operation_inv in Hop as (D & m & Hd & Hm & -> & Hw1).
  destruct (decide (Lock m = id)) as [Heq|Hne]; [done|].
  rewrite Hmax.
  destruct (negb (60 * Second =? 0) && (60 * Second <? now w1 - startTime b)) eqn:Hc; [done|].
  assert (Hle : now w1 - startTime b <= 60 * Second).
  { apply andb_false_iff in Hc as [Hc|Hc]; [done|]. by apply Z.ltb_ge in Hc. }
  cbn zeta. unfold Begin_notify. unfold_ops. wsimpl.
  pose proof (Hint (retries b) (ext w1)) as Hn.
  subst w1. revert Hle Hn. wsimpl. intros Hle Hn.
  apply IH; [reflexivity|nia|wsimpl; nia].
Qed.

Lemma Begin_sync_unfold (fuel : nat) (d : loc) (l : Locker) (id : string) (w : World) :
  Begin_sync rt fuel d l id w =
  match RetryNotify_loop rt fuel (Begin_operation d id)
          (mkExponentialBackOff (60 * Second) (now w) 0) Begin_notify w with
  | Ok (Some e) w' => Ok (None, Some ("Datastore cannot sync: " +:+ e)) w'
  | Ok None w' => Ok (Some (mkTransaction d l false id), None) w'
  | Parked w' => Parked w'
  | Panicked w' => Panicked w'
  | Timeout w' => Timeout w'
  end.
Proof.
  unfold Begin_sync, RetryNotify. unfold_ops. wsimpl.
  destruct (RetryNotify_loop _ _ _ _ _ _) as [[e|] w'| | |]; reflexivity.
Qed.

Lemma Begin_sync_spec (fuel : nat) (d : loc) (l : Locker) (id : string) (w : World) :
  let o := Begin_sync rt fuel d l id w in
  (forall t err w', o = Ok (Some t, err) w' ->
     err = None /\ t = mkTransaction d l false id /\
     exists D m, stores w' !! d = Some D /\ metas w' !! meta D = Some m /\ Lock m = id) /\
  (forall err w', o = Ok (None, err) w' ->
     exists lock, lock <> id /\
       err = Some ("Datastore cannot sync: " +:+ sync_error id lock) /\
       60 * Second < now w' - now w) /\
  (exists evs, trace (final o) = trace w ++ evs /\
               sleeps_within (now w) (60 * Second) evs) /\
  (forall delta, 0 < delta -> (forall n x, delta <= fst (interval rt n x)) ->
     60 * Second < (Z.of_nat fuel - 1) * delta ->
     forall w', o <> Timeout w').
Proof.
  cbn zeta. rewrite Begin_sync_unfold.
  destruct (poll_spec d id fuel w (mkExponentialBackOff (60 * Second) (now w) 0) eq_refl)
    as (HA & HB & HC).
  cbn zeta in HA, HB, HC. wsimpl_in HB. wsimpl_in HC.
  split; [|split; [|split]].
  - intros t err w' H.
    destruct (RetryNotify_loop _ _ _ _ _ _) as [[e|] w1| | |]; try done.
    injection H as <- <- <-. split; [done|]. split; [done|]. by apply HA.
  - intros err w' H.
    destruct (RetryNotify_loop _ _ _ _ _ _) as [[e|] w1| | |]; try done.
    injection H as <- <-.
    destruct (HB e w1 eq_refl) as (lock & Hne & -> & Ht). eauto.
  - destruct HC as (evs & Htr & Hsl). exists evs. split; [|exact Hsl].
    rewrite <- Htr.
    by destruct (RetryNotify_loop _ _ _ _ _ _) as [[e|] w1| | |].
  - intros delta Hpos Hint Hfuel w' H.
    assert (Hnz : (0 < fuel)%nat).
    { unfold Second, Nanosecond in Hfuel. nia. }
    pose proof (poll_terminates d id delta Hpos Hint fuel w
                  (mkExponentialBackOff (60 * Second) (now w) 0) eq_refl Hnz) as HT.
    wsimpl_in HT.
    destruct (RetryNotify_loop _ _ _ _ _ _) as [[e|] w1| | |] eqn:Hl; try done.
    injection H as ->. eapply HT; [|reflexivity]. lia.
Qed.

(** A transaction that [Begin] returns is bound to the Datastore it was
    asked of, is not used, and comes without an error. *)
Lemma Begin_tx_inv (fuel : nat) (d : loc) (w w' : World) (t : datastoreTransaction)
    (err : error) :
  Begin rt fuel d w = Ok (Some t, err) w' ->
  Datastore_ t = d /\ dirty t = false /\ err = None.
Proof.
  unfold Begin. exec.
  destruct (stores w !! d) as [D|] eqn:Hd; exec; [|done].
  case_result; exec; [done|].
  match goal with
  | |- context [match ?x with LockGoroutineDone => _ | _ => _ end] => destruct x eqn:?
  end; exec; try done.
  - case_result; exec; [done|].
    intros H. apply Begin_sync_spec in H as (-> & -> & _). done.
  - intros H. apply Begin_sync_spec in H as (-> & -> & _). done.
Qed.








(** C3. After [Begin] has returned a Transaction and [Commit v] on it has
    succeeded, [Get] on the same Datastore returns [v]; [Get] makes no
    call to the store (its trace is the read hold around the read of the
    cached Object, the outside is untouched): the value is the one that
    [Commit] installed. *)
Theorem read_after_commit (fuel : nat) (d : loc) (v : Object)
    (t t' : datastoreTransaction) (w0 w1 w2 : World) :
  Begin rt fuel d w0 = Ok (Some t, None) w1 ->
  Commit t v w1 = Ok (None, t') w2 ->
  exists w3,
    Get d w2 = Ok v w3 /\
    trace w3 = trace w2 ++ [EvRLock; EvRead CachedObject; EvRUnlock] /\
    ext w3 = ext w2 /\
    (exists D, stores w2 !! d = Some D /\ object D = v).
Proof.
  intros HB HC.
  apply Begin_tx_inv in HB as (Hd & _ & _).
  apply Commit_success_inv in HC as (D & HD & Hl & _ & _ & Hst).
  rewrite Hd in HD, Hst.
  assert (Hd2 : stores w2 !! d = Some (set_object v D)).
  { rewrite Hst. apply lookup_insert_eq. }
  destruct (Get_cached d w2 _ Hd2) as (w3 & HG & Htr & Hext & _).
  { cbn. by rewrite Hl. }
  exists w3. split; [exact HG|]. split; [exact Htr|]. split; [exact Hext|].
  eexists. split; [exact Hd2|reflexivity].
Qed.

(** What [NewDataStore] builds. *)
Lemma NewDataStore_inv (kvSource : @KvSource Config Ext) (c : Context)
    (o : Object) (l : option (@Listener Config Ext)) (w0 w1 : World) (d : loc) :
  NewDataStore kvSource c o l w0 = Ok (Some d, None) w1 ->
  exists m,
    stores w1 !! d =
      Some (mkDatastore kvSource c unlocked o m (Prefix kvSource +:+ "/lock") l) /\
    metas w1 !! m = Some (mkMetadata "") /\
    goroutines w1 = goroutines w0 ++ [mkGoTask d None].
Proof.
  unfold NewDataStore, watchChanges. exec.
  case_result; exec; [done|].
  intros [= <- <-]. wsimpl. rewrite !lookup_insert_eq.
  eexists. repeat split. apply lookup_insert_eq.
Qed.

(** The first two things that [Begin] does. *)
Lemma Begin_first_calls (fuel : nat) (d : loc) (w : World) (D : Datastore) :
  stores w !! d = Some D ->
  exists evs,
    trace (final (Begin rt fuel d w)) =
      trace w ++ [EvDebugf "Transaction %s begins" [AString (fst (uuid_NewV4 rt (ext w)))];
                  EvNewLock (lockKey D)
                    {| TTL := 20000000000;
                       Value := String.list_byte_of_string (fst (uuid_NewV4 rt (ext w))) |}]
              ++ evs.
Proof.
  intros Hd. unfold Begin. exec.
  change (20 * Second) with 20000000000.
  case_result; exec; [tidy_trace; by eexists|].
  match goal with
  | |- context [match ?x with LockGoroutineDone => _ | _ => _ end] => destruct x eqn:?
  end; exec; try (tidy_trace; by eexists).
  - case_result; exec; [tidy_trace; by eexists|].
    match goal with
    | |- context [Begin_sync rt fuel d ?l ?i ?w4] =>
        destruct (Begin_sync_spec fuel d l i w4) as (_ & _ & (evs & Htr & _) & _)
    end.
    rewrite Htr. wsimpl. tidy_trace. by eexists.
  - match goal with
    | |- context [Begin_sync rt fuel d ?l ?i ?w4] =>
        destruct (Begin_sync_spec fuel d l i w4) as (_ & _ & (evs & Htr & _) & _)
    end.
    rewrite Htr. wsimpl. tidy_trace. by eexists.
Qed.

(** C8. The Datastore that [NewDataStore] builds has the lock key
    [Prefix + "/lock"] of its client; and on a Datastore with that client
    and that key, every [Begin] first logs its fresh id and then asks the
    client for the lock of [Prefix + "/lock"], with a TTL of 20 seconds
    (20 000 000 000 ns) and the bytes of the id as value.  The request is
    the call [NewLock] of the client with these arguments, made right
    after the id was drawn, and [Begin] goes on with what it answers:
    - when it answers an error, [Begin] returns that error and no
      Transaction, and leaves the outside world as the call left it;
    - a Transaction that [Begin] returns carries the locker that the call
      answered, and the id that was sent as value;
    - when it answers a locker whose [Lock] fails, [Begin] returns the
      error of that [Lock], and leaves the outside world as [Lock] left
      it. *)
Theorem Begin_requests_lock (kvSource : @KvSource Config Ext) (c : Context)
    (o : Object) (l : option (@Listener Config Ext)) (w0 w1 : World) (d : loc) :
  NewDataStore kvSource c o l w0 = Ok (Some d, None) w1 ->
  (exists D, stores w1 !! d = Some D /\ kv D = kvSource /\
             lockKey D = Prefix kvSource +:+ "/lock") /\
  forall (fuel : nat) (w : World) (D : Datastore),
    stores w !! d = Some D -> kv D = kvSource -> lockKey D = Prefix kvSource +:+ "/lock" ->
    let id := fst (uuid_NewV4 rt (ext w)) in
    let opts := {| TTL := 20000000000; Value := String.list_byte_of_string id |} in
    let r := NewLock kvSource (Prefix kvSource +:+ "/lock") opts
               (snd (uuid_NewV4 rt (ext w))) in
    let sel := select_Begin rt (snd r) in
    (exists evs,
       trace (final (Begin rt fuel d w)) =
         trace w ++ [EvDebugf "Transaction %s begins" [AString id];
                     EvNewLock (Prefix kvSource +:+ "/lock") opts] ++ evs) /\
    (forall e, snd (fst r) = Some e ->
       exists w', Begin rt fuel d w = Ok (None, Some e) w' /\ ext w' = snd r /\
                  trace w' =
                    trace w ++ [EvDebugf "Transaction %s begins" [AString id];
                                EvNewLock (Prefix kvSource +:+ "/lock") opts]) /\
    (forall t err w', Begin rt fuel d w = Ok (Some t, err) w' ->
       snd (fst r) = None /\ err = None /\ t = mkTransaction d (fst (fst r)) false id) /\
    (forall e, snd (fst r) = None -> fst sel = LockGoroutineDone ->
       fst (Locker_Lock (fst (fst r)) (snd sel)) = Some e ->
       exists w', Begin rt fuel d w = Ok (None, Some e) w' /\
                  ext w' = snd (Locker_Lock (fst (fst r)) (snd sel))).
Proof.
  intros HN. split.
  - apply NewDataStore_inv in HN as (m & Hd & _). eauto.
  - clear HN. intros fuel w D Hd Hkv Hkey id opts r sel.
    subst sel r opts id. subst kvSource. rewrite <- Hkey.
    split; [by apply Begin_first_calls|].
    change 20000000000 with (20 * Second).
    split; [|split].
    + intros e He. unfold Begin. exec.
      eexists. split; [reflexivity|]. wsimpl. tidy_trace. done.
    + intros t err w'. unfold Begin. exec.
      case_result; exec; [done|].
      match goal with
      | |- context [match ?x with LockGoroutineDone => _ | _ => _ end] =>
          destruct x eqn:?
      end; exec; try done.
      * case_result; exec; [done|].
        intros H. apply Begin_sync_spec in H as (-> & -> & _). done.
      * intros H. apply Begin_sync_spec in H as (-> & -> & _). done.
    + intros e He Hsel HL. unfold Begin. exec.
      eexists. split; [reflexivity|]. wsimpl. done.
Qed.

(** *** The watch goroutine *)

Lemma watch_loop_step (fuel : nat) (d : loc) (err : error) (w : World) :
  watch_loop (S fuel) d err w =
  match watch_iteration d err w with
  | Ok (Some e) w' => Ok e w'
  | Ok None w' => watch_loop fuel d err w'
  | Parked w' => Parked w'
  | Panicked w' => Panicked w'
  | Timeout w' => Timeout w'
  end.
Proof.
  cbn [watch_loop]. unfold bind at 1.
  destruct (watch_iteration d err w) as [[e|] w'| | |]; reflexivity.
Qed.

(** C10. A reload (a notification received, with the guard free and the
    cached pointers valid) releases the write guard on each of its three
    paths: when loading the Object fails, when loading the Metadata
    fails, and when both succeed.  On the failing paths the last event
    before the return is the unlock; on the successful path the unlock
    comes before anything that concerns the listener.  In every case the
    struct behind [d] is back to what it was, guard free. *)
Theorem reload_releases_guard (d : loc) (err : error) (w : World) (D : Datastore)
    (rest : list Signal) (c : Config) (m : Metadata) :
  stores w !! d = Some D ->
  localLock D = unlocked ->
  inbox w = SigKv true :: rest ->
  objects w !! object D = Some c ->
  metas w !! meta D = Some m ->
  let r1 := LoadConfig_Object (kv D) c (ext w) in
  let r2 := LoadConfig_Metadata (kv D) m (snd r1) in
  exists r w' evs,
    watch_iteration d err w = Ok r w' /\
    trace w' = trace w ++ evs /\
    stores w' = stores w /\
    match snd (fst r1) with
    | Some e =>
        r = Some (Some e) /\
        evs = [EvLock; EvRead CachedObject; EvLoadConfig CachedObject (object D);
               EvWrite CachedObject; EvUnlock]
    | None =>
        match snd (fst r2) with
        | Some e => r = Some (Some e) /\ evs = reload_events (object D) (meta D)
        | None =>
            r = None /\
            exists tail, evs = reload_events (object D) (meta D) ++ tail /\
                         Forall (fun e => guard_step unlocked e = unlocked) tail
        end
    end.
Proof.
  intros Hd Hl Hin Ho Hm r1 r2. subst r1 r2.
  assert (Hs : forall g, <[d := set_localLock (mkRWMutex false 0) (set_localLock g D)]>
                           (<[d := set_localLock g D]> (stores w)) = stores w).
  { intros g. by apply relock_stores. }
  unfold watch_iteration. exec.
  destruct (snd (fst (LoadConfig_Object (kv D) c (ext w)))) as [e1|] eqn:H1; exec.
  { do 3 eexists. split; [reflexivity|]. wsimpl. tidy_trace. rewrite Hs. done. }
  destruct (snd (fst (LoadConfig_Metadata (kv D) m
                        (snd (LoadConfig_Object (kv D) c (ext w)))))) as [e2|] eqn:H2; exec.
  { do 3 eexists. split; [reflexivity|]. wsimpl. tidy_trace. rewrite Hs. done. }
  destruct (listener D) as [f|] eqn:Hf; exec.
  - case_result; exec.
    + do 3 eexists. split; [reflexivity|]. wsimpl. tidy_trace. rewrite Hs.
      split; [reflexivity|]. split; [done|]. split; [done|].
      eexists. split; [unfold reload_events; cbn [app]; reflexivity|].
      repeat constructor.
    + do 3 eexists. split; [reflexivity|]. wsimpl. tidy_trace. rewrite Hs.
      split; [reflexivity|]. split; [done|]. split; [done|].
      eexists. split; [unfold reload_events; cbn [app]; reflexivity|].
      repeat constructor.
  - do 3 eexists. split; [reflexivity|]. wsimpl. tidy_trace. rewrite Hs.
    split; [reflexivity|]. split; [done|]. split; [done|].
    exists []. split; [by rewrite app_nil_r|constructor].
Qed.

(** C9. On a reload that goes through, with a listener [f] configured:
    the listener is called once, after the unlock of the guard, with the
    cached Object, whose contents are the ones just loaded; whether it
    returns an error or not, the turn of the loop does not return (the
    operation goes on to the next notification, nothing reaches the retry
    wrapper); its error, if any, is logged with [Errorf]. *)
Theorem listener_called_once (d : loc) (err : error) (w : World) (D : Datastore)
    (f : @Listener Config Ext) (rest : list Signal) (c : Config) (m : Metadata) :
  stores w !! d = Some D ->
  localLock D = unlocked ->
  listener D = Some f ->
  inbox w = SigKv true :: rest ->
  objects w !! object D = Some c ->
  metas w !! meta D = Some m ->
  let r1 := LoadConfig_Object (kv D) c (ext w) in
  let r2 := LoadConfig_Metadata (kv D) m (snd r1) in
  let refreshed := <[object D := fst (fst r1)]> (objects w) in
  let r3 := f (object D) refreshed (snd r2) in
  snd (fst r1) = None ->
  snd (fst r2) = None ->
  exists w' evs,
    watch_iteration d err w = Ok None w' /\
    trace w' = trace w ++ evs /\
    evs = reload_events (object D) (meta D) ++
          [EvRead CachedObject; EvListener (object D)] ++
          match fst r3 with
          | Some e => [EvErrorf "Error calling datastore listener: %s" [AString e]]
          | None => []
          end /\
    length (filter (fun e => is_listener e = true) evs) = 1%nat /\
    objects w' = refreshed /\
    ext w' = snd r3 /\
    inbox w' = rest /\
    stores w' = stores w /\
    forall fuel, watch_loop (S fuel) d err w = watch_loop fuel d err w'.
Proof.
  intros Hd Hl Hf Hin Ho Hm r1 r2 refreshed r3 H1 H2. subst r3 refreshed r2 r1.
  assert (Hs : forall g, <[d := set_localLock (mkRWMutex false 0) (set_localLock g D)]>
                           (<[d := set_localLock g D]> (stores w)) = stores w).
  { intros g. by apply relock_stores. }
  assert (HI : exists w' evs,
    watch_iteration d err w = Ok None w' /\
    trace w' = trace w ++ evs /\
    evs = reload_events (object D) (meta D) ++
          [EvRead CachedObject; EvListener (object D)] ++
          match fst (f (object D) (<[object D := fst (fst (LoadConfig_Object (kv D) c (ext w)))]>
                                     (objects w))
                       (snd (LoadConfig_Metadata (kv D) m
                               (snd (LoadConfig_Object (kv D) c (ext w)))))) with
          | Some e => [EvErrorf "Error calling datastore listener: %s" [AString e]]
          | None => []
          end /\
    objects w' = <[object D := fst (fst (LoadConfig_Object (kv D) c (ext w)))]> (objects w) /\
    ext w' = snd (f (object D) (<[object D := fst (fst (LoadConfig_Object (kv D) c (ext w)))]>
                                  (objects w))
                    (snd (LoadConfig_Metadata (kv D) m
                            (snd (LoadConfig_Object (kv D) c (ext w)))))) /\
    inbox w' = rest /\
    stores w' = stores w).
  { unfold watch_iteration. exec.
    destruct (fst (f _ _ _)) as [e|] eqn:H3; exec.
    - do 2 eexists. split; [reflexivity|]. wsimpl. tidy_trace. rewrite Hs. done.
    - do 2 eexists. split; [reflexivity|]. wsimpl. tidy_trace. rewrite Hs. done. }
  destruct HI as (w' & evs & Hrun & Htr & Hevs & Hobj & Hext & Hinb & Hst).
  exists w', evs. repeat split; try done.
  - subst evs. destruct (fst (f _ _ _)); reflexivity.
  - intros fuel. rewrite watch_loop_step. by rewrite Hrun.
Qed.

(** When the channel is closed the closure hands back the [err] it
    captured, whatever it is. *)
Lemma watch_iteration_closed (d : loc) (err : error) (w : World) (rest : list Signal) :
  inbox w = SigKv false :: rest ->
  watch_iteration d err w =
  Ok (Some err) (set_ctx_done true (set_trace (trace w ++ [EvCancel]) (set_inbox rest w))).
Proof. intros Hin. unfold watch_iteration. exec. reflexivity. Qed.

(** C5, what the code does.  [watchChanges] starts its goroutine only
    when [Watch] returned nil, so the [err] that the closure captures is
    nil.  When the notification channel is closed, the goroutine cancels
    its sub-context and the operation returns that nil: the retry wrapper
    takes it for a success and returns, the goroutine ends (the rest of
    the inbox is never read), and nothing is logged: the trace gains
    [EvCancel] and no [EvErrorf]. *)
Theorem closed_watch_logs_nothing (d : loc) (w w1 : World) :
  watchChanges d w = Ok None w1 ->
  goroutines w1 = goroutines w ++ [mkGoTask d None] /\
  forall (fuel : nat) (w2 : World) (rest : list Signal),
    inbox w2 = SigKv false :: rest ->
    exists w3,
      watch_go rt (S fuel) (mkGoTask d None) w2 = Ok tt w3 /\
      trace w3 = trace w2 ++ [EvCancel] /\
      filter (fun e => is_Errorf e = true) [EvCancel] = [] /\
      inbox w3 = rest /\
      ctx_done w3 = true.
Proof.
  intros HW. split.
  - revert HW. unfold watchChanges. exec.
    destruct (stores w !! d) as [D|] eqn:Hd; exec; [|done].
    case_result; exec; [done|]. by intros [= <-].
  - intros fuel w2 rest Hin.
    unfold watch_go, RetryNotify. cbn [RetryNotify_loop]. unfold watch_operation.
    exec. cbn [length]. rewrite watch_loop_step.
    rewrite (watch_iteration_closed _ _ _ rest); [|by wsimpl].
    exec. eexists. split; [reflexivity|]. by wsimpl.
Qed.

(** *** The guard *)

Lemma Get_guarded : guarded unlocked [EvRLock; EvRead CachedObject; EvRUnlock] = true.
Proof. reflexivity. Qed.

Lemma reload_guarded (o : Object) (m : loc) : guarded unlocked (reload_events o m) = true.
Proof. reflexivity. Qed.

(** Every path through [Commit] keeps its accesses under the write hold. *)
Lemma Commit_guarded (s : datastoreTransaction) (v : Object) (w : World) (D : Datastore) :
  stores w !! Datastore_ s = Some D ->
  localLock D = unlocked ->
  exists evs, trace (final (Commit s v w)) = trace w ++ evs /\ guarded unlocked evs = true.
Proof.
  intros Hd Hl. unfold Commit. exec.
  destruct (dirty s); exec; [tidy_trace; by eexists|].
  case_result; exec; [tidy_trace; by eexists|].
  case_result; exec; tidy_trace; by eexists.
Qed.

(** C6, what the code does.  The poll of [Begin] reads the pointer
    [d.meta] under a read hold, inside [get]; the hold is released when
    [get] returns, and the comparison reads [meta.Lock] through the
    pointer after that: the last access of the poll is not under the
    guard, while the ones before it are. *)
Theorem sync_poll_reads_outside_guard (d : loc) (id : string) (w : World)
    (D : Datastore) (m : Metadata) :
  stores w !! d = Some D ->
  writer (localLock D) = false ->
  metas w !! meta D = Some m ->
  exists r w',
    Begin_operation d id w = Ok r w' /\
    trace w' = trace w ++ [EvRLock; EvRead CachedMeta; EvRUnlock; EvRead CachedMeta] /\
    guarded unlocked [EvRLock; EvRead CachedMeta; EvRUnlock] = true /\
    guarded unlocked [EvRLock; EvRead CachedMeta; EvRUnlock; EvRead CachedMeta] = false.
Proof.
  intros Hd Hw Hm. unfold Begin_operation, get. exec.
  destruct (decide (Lock m = id)); exec;
    (do 2 eexists; split; [reflexivity|]; wsimpl; tidy_trace; done).
Qed.

(** The listener's argument is read after the unlock as well. *)
Lemma listener_argument_outside_guard (o : Object) (m : loc) :
  guarded unlocked (reload_events o m ++ [EvRead CachedObject; EvListener o]) = false.
Proof. reflexivity. Qed.

(** *** Two runs of Begin on the small store *)

(** The watch goroutine catches up during the first sleep: the second
    poll sees the id and the Transaction is returned after 500 ms. *)
Example Toy_Begin_syncs :
  match Begin (Toy.runtime Toy.catching_up) 5 1%positive (Toy.world None [] []) with
  | Ok (Some t, None) w' =>
      t = Toy.tx false /\ now w' = 500000000 /\
      metas w' !! 1%positive = Some (mkMetadata "6ba7b810-9dad-41d1-80b4-00c04fd430c8")
  | _ => False
  end.
Proof. vm_compute. repeat split. Qed.

(** The cache never catches up: the poll gives up once 60 seconds are
    passed, and no Transaction is returned. *)
Example Toy_Begin_gives_up :
  match Begin (Toy.runtime Toy.stuck) 20 1%positive (Toy.world None [] []) with
  | Ok (None, Some e) w' =>
      e = "Datastore cannot sync: Object lock value: expected 6ba7b810-9dad-41d1-80b4-00c04fd430c8, got "
      /\ 60 * Second < now w'
  | _ => False
  end.
Proof. vm_compute. repeat split. Qed.

(** *** The iteration bound of the watch operation is never reached *)

Lemma watch_iteration_progress (d : loc) (err : error) (w w' : World) :
  (forall w1, watch_iteration d err w <> Timeout w1) /\
  (watch_iteration d err w = Ok None w' -> (length (inbox w') < length (inbox w))%nat).
Proof.
  unfold watch_iteration.
  split; [intros w1|];
    repeat (exec; try done; try case_stuck);
    try (intros [= <-]; wsimpl; cbn [length]; lia).
Qed.

Lemma watch_loop_no_timeout (d : loc) (err : error) (fuel : nat) :
  forall w : World, (length (inbox w) < fuel)%nat ->
                    forall w', watch_loop fuel d err w <> Timeout w'.
Proof.
  induction fuel as [|fuel IH]; intros w Hlen w'; [lia|].
  rewrite watch_loop_step.
  destruct (watch_iteration d err w) as [[e|] w1|w1|w1|w1] eqn:Hit; try done.
  - apply IH. apply (watch_iteration_progress d err w w1) in Hit. lia.
  - by apply (watch_iteration_progress d err w w1) in Hit.
Qed.

Lemma watch_operation_no_timeout (d : loc) (err : error) (w w' : World) :
  watch_operation d err w <> Timeout w'.
Proof. unfold watch_operation. apply watch_loop_no_timeout. lia. Qed.

(** *** The client and the lock key of a Datastore are never reassigned *)

Lemma same_client_refl (w : World) : same_client w w.
Proof. intros d D H. eauto 10. Qed.

Lemma same_client_trans (w1 w2 w3 : World) :
  same_client w1 w2 -> same_client w2 w3 -> same_client w1 w3.
Proof.
  intros H12 H23 d D H.
  destruct (H12 d D H) as (D2 & HD2 & ? & ? & ? & ?).
  destruct (H23 d D2 HD2) as (D3 & HD3 & ? & ? & ? & ?).
  exists D3. repeat split; congruence.
Qed.

Lemma same_client_stores (w w' : World) : stores w' = stores w -> same_client w w'.
Proof. intros E d D H. rewrite E. eauto 10. Qed.

Lemma Commit_same_client (s : datastoreTransaction) (v : Object) (w : World) :
  same_client w (final (Commit s v w)).
Proof. unfold Commit. repeat (exec; try case_stuck); client (Datastore_ s). Qed.

Lemma Get_same_client (d : loc) (w : World) : same_client w (final (Get d w)).
Proof. unfold Get. repeat (exec; try case_stuck); client d. Qed.

Lemma Load_same_client (d : loc) (w : World) : same_client w (final (Load d w)).
Proof. unfold Load. repeat (exec; try case_stuck); client d. Qed.

Lemma watch_iteration_same_client (d : loc) (err : error) (w : World) :
  same_client w (final (watch_iteration d err w)).
Proof. unfold watch_iteration. repeat (exec; try case_stuck); client d. Qed.

Lemma Begin_operation_same_client (d : loc) (id : string) (w : World) :
  same_client w (final (Begin_operation d id w)).
Proof. unfold Begin_operation, get. repeat (exec; try case_stuck); client d. Qed.

Lemma RetryNotify_loop_same_client (fuel : nat) (operation : M error)
    (notify : string -> Duration -> M unit) :
  (forall w, same_client w (final (operation w))) ->
  (forall e t w, same_client w (final (notify e t w))) ->
  forall b w, same_client w (final (RetryNotify_loop rt fuel operation b notify w)).
Proof.
  intros Hop Hn. induction fuel as [|fuel IH]; intros b w; [apply same_client_refl|].
  rewrite RetryNotify_loop_step.
  pose proof (Hop w) as H1.
  destruct (operation w) as [[e|] w1|w1|w1|w1]; cbn [final] in H1; try exact H1.
  destruct (negb _ && _); [exact H1|].
  cbn zeta. unfold bind at 1.
  match goal with
  | |- context [notify e ?t ?w1'] =>
      pose proof (Hn e t w1') as H2;
      assert (H1' : same_client w1 w1') by (apply same_client_stores; reflexivity);
      destruct (notify e t w1') as [[] w2|w2|w2|w2]; cbn [final] in H2
  end;
    try (eapply same_client_trans; [exact H1|];
         eapply same_client_trans; [exact H1'|exact H2]).
  unfold bind at 1. unfold time_Sleep at 1.
  eapply same_client_trans; [exact H1|].
  eapply same_client_trans; [exact H1'|].
  eapply same_client_trans; [exact H2|].
  eapply same_client_trans; [|apply IH]. apply same_client_stores; reflexivity.
Qed.

Lemma watch_loop_same_client (fuel : nat) (d : loc) (err : error) :
  forall w : World, same_client w (final (watch_loop fuel d err w)).
Proof.
  induction fuel as [|fuel IH]; intros w; [apply same_client_refl|].
  rewrite watch_loop_step.
  pose proof (watch_iteration_same_client d err w) as H1.
  destruct (watch_iteration d err w) as [[e|] w1|w1|w1|w1]; cbn [final] in H1; try exact H1.
  eapply same_client_trans; [exact H1|apply IH].
Qed.

Lemma watch_go_same_client (fuel : nat) (t : GoTask) (w : World) :
  same_client w (final (watch_go rt fuel t w)).
Proof.
  unfold watch_go, RetryNotify. unfold_ops. wsimpl.
  match goal with
  | |- context [RetryNotify_loop rt fuel ?op ?b ?n ?w0] =>
      pose proof (RetryNotify_loop_same_client fuel op n) as H;
      specialize (H (fun w => watch_loop_same_client _ _ _ w));
      specialize (H (fun e t w => same_client_refl _) b w0);
      destruct (RetryNotify_loop rt fuel op b n w0) as [[e|] w1|w1|w1|w1]
  end; exact H.
Qed.

Lemma Begin_same_client (fuel : nat) (d : loc) (w : World) :
  same_client w (final (Begin rt fuel d w)).
Proof.
  assert (HS : forall l i w0, same_client w0 (final (Begin_sync rt fuel d l i w0))).
  { intros l i w0. rewrite Begin_sync_unfold.
    pose proof (RetryNotify_loop_same_client fuel (Begin_operation d i) Begin_notify
                  (Begin_operation_same_client d i)
                  (fun e t w => same_client_refl _)
                  (mkExponentialBackOff (60 * Second) (now w0) 0) w0) as H.
    destruct (RetryNotify_loop _ _ _ _ _ _) as [[e|] w1|w1|w1|w1]; exact H. }
  unfold Begin.
  repeat (exec; try case_stuck);
    try (eapply same_client_trans; [|apply HS]);
    client d.
Qed.

(** The lock request of [Begin] in any world that the operations of this
    file lead to from the one that [NewDataStore] returned in. *)
Lemma Begin_requests_lock_later (kvSource : @KvSource Config Ext) (c : Context)
    (o : Object) (l : option (@Listener Config Ext)) (w0 w1 w : World) (d : loc)
    (fuel : nat) :
  NewDataStore kvSource c o l w0 = Ok (Some d, None) w1 ->
  same_client w1 w ->
  exists evs,
    trace (final (Begin rt fuel d w)) =
      trace w ++ [EvDebugf "Transaction %s begins" [AString (fst (uuid_NewV4 rt (ext w)))];
                  EvNewLock (Prefix kvSource +:+ "/lock")
                    {| TTL := 20000000000;
                       Value := String.list_byte_of_string (fst (uuid_NewV4 rt (ext w))) |}]
              ++ evs.
Proof.
  intros HN Hsame.
  apply NewDataStore_inv in HN as (m & Hd & _).
  destruct (Hsame _ _ Hd) as (D' & Hd' & _ & Hkey & _).
  cbn in Hkey. rewrite <- Hkey. by apply Begin_first_calls.
Qed.

End Properties.

(** ** The theorems at work on the small store *)

Lemma Commit_persistence_failure_witness :
  exists w',
    Commit (Toy.tx false) 2%positive (Toy.world None [true] []) =
      Ok (Some "store: unavailable", Toy.tx false) w' /\
    trace w' = [EvWatch "traefik/lock"; EvLock; EvStoreConfig 2%positive; EvUnlock] /\
    stores w' = stores (Toy.world None [true] []).
Proof.
  destruct (Commit_persistence_failure (Toy.tx false) 2%positive
              (Toy.world None [true] []) (Toy.datastore None) "store: unavailable")
    as (w' & H1 & H2 & _ & H3 & _); [vm_compute; reflexivity..|].
  exists w'. split; [exact H1|]. split; [exact H2|exact H3].
Defined.

Lemma Commit_unlock_failure_witness :
  exists w',
    Commit (Toy.tx false) 2%positive (Toy.world None [false; true] []) =
      Ok (Some "unlock: lost", Toy.tx false) w' /\
    trace w' = [EvWatch "traefik/lock"; EvLock; EvStoreConfig 2%positive;
                EvRemoteUnlock; EvUnlock] /\
    Toy.stored (ext w') = "v1" /\
    exists w'', Get 1%positive w' = Ok 1%positive w''.
Proof.
  destruct (Commit_unlock_failure (Toy.tx false) 2%positive
              (Toy.world None [false; true] []) (Toy.datastore None) "unlock: lost")
    as (w' & H1 & H2 & H3 & _ & _ & _ & H4 & _); [vm_compute; reflexivity..|].
  exists w'. split; [exact H1|]. split; [exact H2|]. split; [by rewrite H3|exact H4].
Defined.

Lemma Commit_twice_witness :
  exists w',
    Commit (Toy.tx true) 1%positive
      (final (Commit (Toy.tx false) 2%positive (Toy.world None [] []))) =
      Ok (Some "Transaction already used. Please begin a new one.", Toy.tx true) w' /\
    ext w' = Toy.mkExt "v1" "" [].
Proof.
  destruct (Commit_twice (Toy.tx false) (Toy.tx true) 2%positive 1%positive
              (Toy.world None [] [])
              (final (Commit (Toy.tx false) 2%positive (Toy.world None [] [])))
              (final (Commit (Toy.tx false) 2%positive (Toy.world None [] [])))
              (set_object 2%positive (Toy.datastore None)))
    as (w' & H1 & _ & _ & H2 & _); [vm_compute; reflexivity..|].
  exists w'. split; [exact H1|]. by rewrite H2.
Defined.


Lemma read_after_commit_witness :
  exists w3,
    Get 1%positive
      (final (Commit (Toy.tx false) 2%positive
                (final (Begin (Toy.runtime Toy.catching_up) 5 1%positive
                          (Toy.world None [] []))))) = Ok 2%positive w3.
Proof.
  destruct (read_after_commit (Toy.runtime Toy.catching_up) 5 1%positive 2%positive
              (Toy.tx false) (Toy.tx true) (Toy.world None [] [])
              (final (Begin (Toy.runtime Toy.catching_up) 5 1%positive (Toy.world None [] [])))
              (final (Commit (Toy.tx false) 2%positive
                        (final (Begin (Toy.runtime Toy.catching_up) 5 1%positive
                                  (Toy.world None [] []))))))
    as (w3 & H & _); [vm_compute; reflexivity..|].
  exists w3. exact H.
Defined.

Lemma Begin_requests_lock_witness :
  (exists w',
     Begin (Toy.runtime Toy.stuck) 0 1%positive (Toy.world None [true] []) =
       Ok (None, Some "lock: unavailable") w' /\
     ext w' = Toy.mkExt "v0" "" [] /\
     trace w' =
       [EvWatch "traefik/lock";
        EvDebugf "Transaction %s begins" [AString "6ba7b810-9dad-41d1-80b4-00c04fd430c8"];
        EvNewLock "traefik/lock"
          {| TTL := 20000000000;
             Value := String.list_byte_of_string "6ba7b810-9dad-41d1-80b4-00c04fd430c8" |}]) /\
  (exists w',
     Begin (Toy.runtime Toy.stuck) 0 1%positive (Toy.world None [false; true] []) =
       Ok (None, Some "lock: refused") w' /\
     ext w' = Toy.mkExt "v0" "" []).
Proof.
  destruct (Begin_requests_lock (Toy.runtime Toy.stuck) Toy.kvSource 0%nat 1%positive None
              (Toy.boot []) (Toy.world None [] []) 1%positive)
    as (_ & H); [vm_compute; reflexivity|].
  split.
  - destruct (H 0%nat (Toy.world None [true] []) (Toy.datastore None))
      as (_ & H1 & _); [vm_compute; reflexivity..|].
    destruct (H1 "lock: unavailable") as (w' & HB & Hx & Ht); [vm_compute; reflexivity|].
    exists w'. split; [exact HB|]. split; [exact Hx|exact Ht].
  - destruct (H 0%nat (Toy.world None [false; true] []) (Toy.datastore None))
      as (_ & _ & _ & H3); [vm_compute; reflexivity..|].
    destruct (H3 "lock: refused") as (w' & HB & Hx); [vm_compute; reflexivity..|].
    exists w'. split; [exact HB|exact Hx].
Defined.

Lemma listener_called_once_witness :
  exists w' evs,
    watch_iteration 1%positive None
      (Toy.world (Some Toy.on_change) [false; false; true] [SigKv true]) = Ok None w' /\
    trace w' = [EvWatch "traefik/lock"] ++ evs /\
    evs = reload_events 1%positive 1%positive ++
          [EvRead CachedObject; EvListener 1%positive;
           EvErrorf "Error calling datastore listener: %s" [AString "listener: rejected"]].
Proof.
  destruct (listener_called_once 1%positive None
              (Toy.world (Some Toy.on_change) [false; false; true] [SigKv true])
              (Toy.datastore (Some Toy.on_change)) Toy.on_change [] "v0" (mkMetadata ""))
    as (w' & evs & H1 & H2 & H3 & _); [vm_compute; reflexivity..|].
  exists w', evs. split; [exact H1|]. split; [exact H2|exact H3].
Defined.

Lemma reload_releases_guard_witness :
  exists w',
    watch_iteration 1%positive None (Toy.world None [true] [SigKv true]) =
      Ok (Some (Some "load: unavailable")) w' /\
    stores w' = stores (Toy.world None [true] [SigKv true]).
Proof.
  destruct (reload_releases_guard 1%positive None (Toy.world None [true] [SigKv true])
              (Toy.datastore None) [] "v0" (mkMetadata ""))
    as (r & w' & evs & H1 & _ & H2 & H3 & _); [vm_compute; reflexivity..|].
  exists w'. split; [|exact H2]. by rewrite <- H3.
Defined.

Lemma closed_watch_logs_nothing_witness :
  exists w3,
    watch_go (Toy.runtime Toy.stuck) 1 (mkGoTask 1%positive None)
      (Toy.world None [] [SigKv false; SigKv true]) = Ok tt w3 /\
    trace w3 = [EvWatch "traefik/lock"; EvCancel] /\
    inbox w3 = [SigKv true].
Proof.
  destruct (closed_watch_logs_nothing (Toy.runtime Toy.stuck) 1%positive
              (Toy.world None [] [])
              (final (watchChanges 1%positive (Toy.world None [] []))))
    as (_ & H); [vm_compute; reflexivity|].
  destruct (H 0%nat (Toy.world None [] [SigKv false; SigKv true]) [SigKv true])
    as (w3 & H1 & H2 & _ & H3 & _); [vm_compute; reflexivity|].
  exists w3. split; [exact H1|]. split; [exact H2|exact H3].
Defined.

Lemma sync_poll_reads_outside_guard_witness :
  exists r w',
    Begin_operation 1%positive "6ba7b810-9dad-41d1-80b4-00c04fd430c8"
      (Toy.world None [] []) = Ok r w' /\
    trace w' = [EvWatch "traefik/lock"; EvRLock; EvRead CachedMeta; EvRUnlock;
                EvRead CachedMeta].
Proof.
  destruct (sync_poll_reads_outside_guard 1%positive "6ba7b810-9dad-41d1-80b4-00c04fd430c8"
              (Toy.world None [] []) (Toy.datastore None) (mkMetadata ""))
    as (r & w' & H1 & H2 & _); [vm_compute; reflexivity..|].
  exists r, w'. split; [exact H1|exact H2].
Defined.

(** ** Further properties of the operations *)

Section Further.

Context {Config Ext : Type}.

Local Abbreviation Datastore := (@Datastore Config Ext).
Local Abbreviation datastoreTransaction := (@datastoreTransaction Ext).
Local Abbreviation Runtime := (@Runtime Config Ext).
Local Abbreviation World := (@World Config Ext).
Local Abbreviation M := (@M Config Ext).

Variable rt : Runtime.

(** *** Load *)

(** X1. [Load] reloads the Object only, in place and under the write
    hold.  When the client reports an error, [Load] returns no Object and
    that error; otherwise it returns the cached pointer.  Either way the
    contents behind the pointer are what [LoadConfig] left there, the
    Metadata is not touched, the listener is not called, and the
    Datastore is back to its state with the guard free. *)
Theorem Load_reloads_object (d : loc) (w : World) (D : Datastore) (c : Config) :
  stores w !! d = Some D ->
  localLock D = unlocked ->
  objects w !! object D = Some c ->
  let r := LoadConfig_Object (kv D) c (ext w) in
  exists w',
    Load d w = Ok (match snd (fst r) with
                   | Some e => (None, Some e)
                   | None => (Some (object D), None)
                   end) w' /\
    trace w' = trace w ++ [EvLock; EvRead CachedObject;
                           EvLoadConfig CachedObject (object D); EvWrite CachedObject]
                       ++ match snd (fst r) with
                          | Some _ => []
                          | None => [EvRead CachedObject]
                          end
                       ++ [EvUnlock] /\
    objects w' = <[object D := fst (fst r)]> (objects w) /\
    metas w' = metas w /\
    stores w' = stores w /\
    ext w' = snd r.
Proof.
  intros Hd Hl Ho r. subst r.
  assert (Hs : forall g, <[d := set_localLock (mkRWMutex false 0) (set_localLock g D)]>
                           (<[d := set_localLock g D]> (stores w)) = stores w).
  { intros g. by apply relock_stores. }
  unfold Load. exec.
  destruct (snd (fst (LoadConfig_Object (kv D) c (ext w)))) as [e|] eqn:He; exec.
  - eexists. split; [reflexivity|]. wsimpl. tidy_trace. by rewrite Hs.
  - eexists. split; [reflexivity|]. wsimpl. tidy_trace. by rewrite Hs.
Qed.

(** *** NewDataStore *)

(** X2. [NewDataStore] registers one watch, on the key [Prefix + "/lock"].
    When the registration fails, it returns no Datastore and that error,
    and no goroutine is started.  Otherwise it returns a new Datastore
    (its address and the address of its Metadata were free) around the
    given client, context, Object and listener, with the guard free and
    an empty lock holder, and it has started exactly one goroutine, which
    captured a nil [err]. *)
Theorem NewDataStore_outcome (kvSource : @KvSource Config Ext) (c : Context)
    (o : Object) (l : option (@Listener Config Ext)) (w0 : World) :
  let key := Prefix kvSource +:+ "/lock" in
  let r := Watch kvSource key (ext w0) in
  exists w1,
    final (NewDataStore kvSource c o l w0) = w1 /\
    trace w1 = trace w0 ++ [EvWatch key] /\
    ext w1 = snd r /\
    match fst r with
    | Some e =>
        NewDataStore kvSource c o l w0 = Ok (None, Some e) w1 /\
        goroutines w1 = goroutines w0
    | None =>
        exists d m,
          NewDataStore kvSource c o l w0 = Ok (Some d, None) w1 /\
          stores w0 !! d = None /\ metas w0 !! m = None /\
          stores w1 !! d = Some (mkDatastore kvSource c unlocked o m key l) /\
          metas w1 !! m = Some (mkMetadata "") /\
          goroutines w1 = goroutines w0 ++ [mkGoTask d None]
    end.
Proof.
  intros key r. subst r key.
  unfold NewDataStore, watchChanges. exec.
  destruct (fst (Watch kvSource _ (ext w0))) as [e|] eqn:HW; exec.
  - eexists. split; [reflexivity|]. by wsimpl.
  - eexists. split; [reflexivity|]. wsimpl. do 2 (split; [done|]).
    do 2 eexists. split; [reflexivity|].
    split; [apply not_elem_of_dom, is_fresh|].
    split; [apply not_elem_of_dom, is_fresh|].
    rewrite !lookup_insert_eq. done.
Qed.

(** *** Commit *)

(** X3. When the store write and the unlock of the remote lock both
    succeed, [Commit] returns nil and hands the transaction back with
    [dirty] set.  The order of its steps is: write hold, store write,
    remote unlock, installation of [newObject] as the cached Object, log,
    release of the hold; so the value is stored before the remote lock is
    given up, and the cache changes only after both calls went through.
    The heaps are not touched. *)
Theorem Commit_success (s : datastoreTransaction) (newObject : Object)
    (w : World) (D : Datastore) :
  stores w !! Datastore_ s = Some D ->
  localLock D = unlocked ->
  dirty s = false ->
  let r1 := StoreConfig (kv D) newObject (objects w) (ext w) in
  let r2 := Locker_Unlock (remoteLock s) (snd r1) in
  fst r1 = None ->
  fst r2 = None ->
  exists w',
    Commit s newObject w = Ok (None, set_dirty true s) w' /\
    trace w' = trace w ++ [EvLock; EvStoreConfig newObject; EvRemoteUnlock;
                           EvWrite CachedObject;
                           EvDebugf "Transaction commited %s" [AString (id s)];
                           EvUnlock] /\
    stores w' = <[Datastore_ s := set_object newObject D]> (stores w) /\
    ext w' = snd r2 /\
    objects w' = objects w /\ metas w' = metas w.
Proof.
  intros Hd Hl Hdirty r1 r2 H1 H2. subst r2 r1.
  unfold Commit. exec.
  eexists. split; [reflexivity|]. wsimpl. tidy_trace.
  repeat split. rewrite !insert_insert_eq. f_equal.
  destruct D; cbn in *. by subst.
Qed.

(** X4. Whatever [Commit] returns, the transaction it hands back differs
    from the one it was given at most in [dirty]: a nil error means that
    the transaction was unused and is now used, an error means that the
    transaction is exactly as it was.  The flag is never cleared. *)
Theorem Commit_flag (s s' : datastoreTransaction) (newObject : Object)
    (w w' : World) (e : error) :
  Commit s newObject w = Ok (e, s') w' ->
  (e = None /\ dirty s = false /\ s' = set_dirty true s) \/
  (e <> None /\ s' = s).
Proof.
  unfold Commit.
  repeat (exec; try done; try case_stuck);
    intros [= <- <- <-]; first [by left | by right].
Qed.

(** *** The guard *)

(** X5. On every path, including the ones that end in a wait or a panic,
    the accesses of [Get], [Load] and [Commit] to the cached Object are
    made under the guard: reads under a read or write hold, writes under
    the write hold. *)
Theorem api_accesses_guarded (d : loc) (s : datastoreTransaction) (v : Object) (w : World) :
  (exists evs, trace (final (Get d w)) = trace w ++ evs /\ guarded unlocked evs = true) /\
  (exists evs, trace (final (Load d w)) = trace w ++ evs /\ guarded unlocked evs = true) /\
  (exists evs, trace (final (Commit s v w)) = trace w ++ evs /\ guarded unlocked evs = true).
Proof.
  split; [|split].
  - unfold Get.
    repeat (exec; try case_stuck); tidy_trace;
      first [by eexists | exists []; by rewrite app_nil_r].
  - unfold Load.
    repeat (exec; try case_stuck); tidy_trace;
      first [by eexists | exists []; by rewrite app_nil_r].
  - unfold Commit.
    repeat (exec; try case_stuck); tidy_trace;
      first [by eexists | exists []; by rewrite app_nil_r].
Qed.

(** X6. An operation that returns has released the guard: after [Get]
    and [Load] the Datastore structs are exactly what they were; after
    [Commit], whatever its result, the guard of its Datastore is free, as
    it was when [Commit] took it. *)
Theorem guard_released_on_return (d : loc) (s : datastoreTransaction) (v : Object)
    (w : World) :
  (forall o w', Get d w = Ok o w' -> stores w' = stores w) /\
  (forall r w', Load d w = Ok r w' -> stores w' = stores w) /\
  (forall r w', Commit s v w = Ok r w' ->
     exists D D', stores w !! Datastore_ s = Some D /\ localLock D = unlocked /\
                  stores w' !! Datastore_ s = Some D' /\ localLock D' = unlocked).
Proof.
  assert (Hre : forall (st : gmap loc Datastore) x (D : Datastore) g1 g2,
             st !! x = Some D -> g2 = localLock D ->
             <[x := set_localLock g2 (set_localLock g1 D)]> (<[x := set_localLock g1 D]> st) = st).
  { intros st x D g1 g2 Hx ->. rewrite insert_insert_eq. apply insert_id.
    rewrite Hx. by destruct D. }
  split; [|split].
  - intros o w'. unfold Get.
    repeat (exec; try done; try case_stuck).
    intros [= <- <-]. wsimpl. eapply Hre; [eassumption|].
    destruct (localLock _); cbn in *; by subst.
  - intros r w'. unfold Load.
    repeat (exec; try done; try case_stuck);
      intros [= <- <-]; wsimpl; (eapply Hre; [eassumption|]);
      match goal with
      | Hm : writer (localLock ?D) || _ = false |- _ =>
          destruct (localLock D) as [[] [|?]]; cbn in *; done
      end.
  - intros r w'. unfold Commit.
    repeat (exec; try done; try case_stuck);
      intros [= <- <-]; wsimpl; rewrite ?lookup_insert_eq;
      match goal with
      | Hm : writer (localLock ?D) || _ = false |- _ =>
          exists D; eexists; split; [done|]; split;
          [destruct (localLock D) as [[] [|?]]; cbn in *; done|];
          split; [reflexivity|];
          destruct (localLock D) as [[] [|?]]; cbn in *; done
      end.
Qed.

(** *** Begin *)


(** X8. When the lifetime context is done before the lock is granted
    (the lock attempt has been started and the [select] takes
    [<-d.ctx.Done()]), [Begin] sends the stop on the unbuffered channel.
    If the lock attempt receives it, [Begin] returns the error of the
    context and no Transaction; the result of the lock attempt is not used
    and the cache is not polled.  If nobody receives it, [Begin] does not
    return: it stays blocked on the send. *)
Theorem Begin_cancelled (fuel : nat) (d : loc) (w : World) (D : Datastore) (e : error) :
  stores w !! d = Some D ->
  let id := fst (uuid_NewV4 rt (ext w)) in
  let opts := {| TTL := 20 * Second; Value := String.list_byte_of_string id |} in
  let r := NewLock (kv D) (lockKey D) opts (snd (uuid_NewV4 rt (ext w))) in
  let sel := select_Begin rt (snd r) in
  snd (fst r) = None ->
  (fst sel = LifetimeCtxDone e ->
   exists w',
     Begin rt fuel d w = Ok (None, e) w' /\
     trace w' = trace w ++ [EvDebugf "Transaction %s begins" [AString id];
                            EvNewLock (lockKey D) opts; EvRemoteLock; EvStop] /\
     ext w' = snd sel /\
     stores w' = stores w /\ now w' = now w) /\
  (fst sel = LifetimeCtxDoneUnheard e ->
   exists w',
     Begin rt fuel d w = Parked w' /\
     trace w' = trace w ++ [EvDebugf "Transaction %s begins" [AString id];
                            EvNewLock (lockKey D) opts; EvRemoteLock] /\
     stores w' = stores w /\ now w' = now w).
Proof.
  intros Hd id opts r sel He. subst sel r opts id. split; intros Hsel.
  - unfold Begin. exec.
    eexists. split; [reflexivity|]. wsimpl. tidy_trace. done.
  - unfold Begin. exec.
    eexists. split; [reflexivity|]. wsimpl. tidy_trace. done.
Qed.

(** X9. A Transaction that [Begin] returns, on whatever path, comes with
    a nil error, is bound to the Datastore that [Begin] was called on, is
    not used, carries the id that this call generated (the value that the
    lock was requested with) and the locker that [NewLock] returned. *)
Theorem Begin_transaction_fresh (fuel : nat) (d : loc) (w w' : World) (D : Datastore)
    (t : datastoreTransaction) (err : error) :
  stores w !! d = Some D ->
  Begin rt fuel d w = Ok (Some t, err) w' ->
  let id := fst (uuid_NewV4 rt (ext w)) in
  let opts := {| TTL := 20 * Second; Value := String.list_byte_of_string id |} in
  err = None /\
  t = mkTransaction d
        (fst (fst (NewLock (kv D) (lockKey D) opts (snd (uuid_NewV4 rt (ext w))))))
        false id.
Proof.
  intros Hd HB id opts. subst opts id. revert HB.
  unfold Begin. exec.
  case_result; exec; [done|].
  match goal with
  | |- context [match ?x with LockGoroutineDone => _ | _ => _ end] => destruct x eqn:?
  end; exec; try done.
  - case_result; exec; [done|].
    intros H. apply Begin_sync_spec in H as (-> & -> & _). done.
  - intros H. apply Begin_sync_spec in H as (-> & -> & _). done.
Qed.

(** X10. The Metadata of a Datastore that [NewDataStore] has just built
    has an empty lock holder: a poll of [Begin] for a non-empty id fails
    on it, with the mismatch error that names the id and the empty
    holder.  A first [Begin] cannot pass its barrier before the watch
    goroutine has reloaded the Metadata. *)
Theorem fresh_Datastore_not_synced (kvSource : @KvSource Config Ext) (c : Context)
    (o : Object) (l : option (@Listener Config Ext)) (w0 w1 : World) (d : loc)
    (id : string) :
  NewDataStore kvSource c o l w0 = Ok (Some d, None) w1 ->
  id <> "" ->
  exists w2,
    Begin_operation d id w1 =
      Ok (Some ("Object lock value: expected " +:+ id +:+ ", got ")) w2 /\
    metas w2 = metas w1 /\ stores w2 = stores w1.
Proof.
  intros HN Hid.
  apply NewDataStore_inv in HN as (m & Hd & Hm & _).
  unfold Begin_operation, get. exec. cbn [Lock].
  destruct (decide ("" = id)) as [E|_]; [by subst|].
  eexists. split; [reflexivity|]. wsimpl. split; [done|].
  rewrite insert_insert_eq. by apply insert_id.
Qed.

(** X11. When the lock is granted and the cached lock holder already
    equals the id at the first poll, [Begin] returns the Transaction at
    once: one poll, no retry logged, no sleep, the clock has not moved. *)
Theorem Begin_synced_at_once (fuel : nat) (d : loc) (w : World) (D : Datastore)
    (remoteLock : @Locker Ext) (m : Metadata) :
  let id := fst (uuid_NewV4 rt (ext w)) in
  let opts := {| TTL := 20 * Second; Value := String.list_byte_of_string id |} in
  let r := NewLock (kv D) (lockKey D) opts (snd (uuid_NewV4 rt (ext w))) in
  let sel := select_Begin rt (snd r) in
  stores w !! d = Some D ->
  writer (localLock D) = false ->
  metas w !! meta D = Some m ->
  Lock m = id ->
  fst r = (remoteLock, None) ->
  fst sel = LockGoroutineDone ->
  fst (Locker_Lock remoteLock (snd sel)) = None ->
  exists w',
    Begin rt (S fuel) d w = Ok (Some (mkTransaction d remoteLock false id), None) w' /\
    trace w' = trace w ++ [EvDebugf "Transaction %s begins" [AString id];
                           EvNewLock (lockKey D) opts; EvRemoteLock;
                           EvRLock; EvRead CachedMeta; EvRUnlock; EvRead CachedMeta] /\
    now w' = now w /\ metas w' = metas w /\ stores w' = stores w.
Proof.
  intros id opts r sel Hd Hw Hm HL HNL Hsel Hlock. subst sel r opts id.
  unfold Begin. exec.
  unfold Begin_sync, RetryNotify. cbn [RetryNotify_loop].
  unfold Begin_operation, get. exec.
  destruct (decide _) as [_|Hne]; [|done]. exec.
  eexists. split; [reflexivity|]. wsimpl. tidy_trace. repeat split.
  rewrite insert_insert_eq. apply insert_id. rewrite Hd. f_equal.
  destruct D as [k c0 [wr n] o mp key l]; cbn in *. by subst.
Qed.

(** *** The watch goroutine *)

(** X12. When the context of the watch goroutine is done (the [select]
    takes [<-ctx.Done()]), the goroutine sends the stop on the unbuffered
    channel.  If the watch of the store receives it, the goroutine ends:
    the operation returns nil, the retry wrapper returns, nothing is
    logged, the cache is not touched and the notifications that are left
    are never read.  If nobody receives it (the watch has ended), the
    goroutine does not end: it stays blocked on the send, having done
    nothing. *)
Theorem watch_stops_on_done (fuel : nat) (t : GoTask) (w : World) (rest : list Signal) :
  (inbox w = SigCtxDone :: rest ->
   exists w',
     watch_go rt (S fuel) t w = Ok tt w' /\
     trace w' = trace w ++ [EvStop] /\
     inbox w' = rest /\
     stores w' = stores w /\ objects w' = objects w /\ metas w' = metas w /\
     ext w' = ext w) /\
  (inbox w = SigCtxDoneUnheard :: rest ->
   exists w',
     watch_go rt (S fuel) t w = Parked w' /\
     trace w' = trace w /\
     inbox w' = rest /\
     stores w' = stores w /\ objects w' = objects w /\ metas w' = metas w /\
     ext w' = ext w).
Proof.
  split; intros Hin.
  - unfold watch_go, RetryNotify. cbn [RetryNotify_loop]. unfold watch_operation.
    exec. cbn [length]. rewrite watch_loop_step.
    unfold watch_iteration. exec.
    eexists. split; [reflexivity|]. by wsimpl.
  - unfold watch_go, RetryNotify. cbn [RetryNotify_loop]. unfold watch_operation.
    exec. cbn [length]. rewrite watch_loop_step.
    unfold watch_iteration. exec.
    eexists. split; [reflexivity|]. by wsimpl.
Qed.

(** X13. When the Object has been reloaded and the reload of the Metadata
    fails, the operation returns the error of the second load with the
    cache half refreshed: the contents of the cached Object are the new
    ones, the Metadata is what the failed load left, and the listener is
    not told. *)
Theorem reload_fails_on_metadata (d : loc) (err : error) (w : World) (D : Datastore)
    (rest : list Signal) (c : Config) (m : Metadata) (e : string) :
  stores w !! d = Some D ->
  localLock D = unlocked ->
  inbox w = SigKv true :: rest ->
  objects w !! object D = Some c ->
  metas w !! meta D = Some m ->
  let r1 := LoadConfig_Object (kv D) c (ext w) in
  let r2 := LoadConfig_Metadata (kv D) m (snd r1) in
  snd (fst r1) = None ->
  snd (fst r2) = Some e ->
  exists w',
    watch_iteration d err w = Ok (Some (Some e)) w' /\
    trace w' = trace w ++ reload_events (object D) (meta D) /\
    objects w' = <[object D := fst (fst r1)]> (objects w) /\
    metas w' = <[meta D := fst (fst r2)]> (metas w) /\
    ext w' = snd r2 /\
    stores w' = stores w /\
    inbox w' = rest.
Proof.
  intros Hd Hl Hin Ho Hm r1 r2 H1 H2. subst r2 r1.
  unfold watch_iteration. exec.
  eexists. split; [reflexivity|]. wsimpl. tidy_trace. repeat split.
  by apply relock_stores.
Qed.

(** A reload that goes through, whatever the listener is. *)
Lemma watch_iteration_reloads (d : loc) (err : error) (w : World) (D : Datastore)
    (rest : list Signal) (c : Config) (m : Metadata) :
  stores w !! d = Some D ->
  localLock D = unlocked ->
  inbox w = SigKv true :: rest ->
  objects w !! object D = Some c ->
  metas w !! meta D = Some m ->
  snd (fst (LoadConfig_Object (kv D) c (ext w))) = None ->
  snd (fst (LoadConfig_Metadata (kv D) m (snd (LoadConfig_Object (kv D) c (ext w))))) = None ->
  exists w' tail,
    watch_iteration d err w = Ok None w' /\
    trace w' = trace w ++ reload_events (object D) (meta D) ++ tail /\
    length (filter (fun e => is_listener e = true) tail) =
      match listener D with Some _ => 1%nat | None => 0%nat end /\
    filter (fun e => is_external e = true) tail = [] /\
    objects w' = <[object D := fst (fst (LoadConfig_Object (kv D) c (ext w)))]> (objects w) /\
    metas w' = <[meta D := fst (fst (LoadConfig_Metadata (kv D) m
                                        (snd (LoadConfig_Object (kv D) c (ext w)))))]>
                 (metas w) /\
    stores w' = stores w /\
    inbox w' = rest /\
    ctx_done w' = ctx_done w.
Proof.
  intros Hd Hl Hin Ho Hm H1 H2.
  assert (Hs : forall g, <[d := set_localLock (mkRWMutex false 0) (set_localLock g D)]>
                           (<[d := set_localLock g D]> (stores w)) = stores w).
  { intros g. by apply relock_stores. }
  unfold watch_iteration. exec.
  destruct (listener D) as [f|] eqn:Hf; exec.
  - case_result; exec;
      (do 2 eexists; split; [reflexivity|]; wsimpl; tidy_trace; rewrite Hs;
       split; [unfold reload_events; cbn [app]; reflexivity|]; done).
  - eexists. exists []. split; [reflexivity|]. wsimpl. tidy_trace. rewrite Hs.
    split; [by rewrite app_nil_r|]. done.
Qed.

(** X14. In one turn of the watch loop the listener is called at most
    once, and only at the end of a complete reload: if the listener is
    called at all, then one is configured, the events of the turn begin
    with the whole guarded reload, the call follows the unlock, its
    argument is the cached Object, and the turn does not return. *)
Theorem listener_only_after_reload (d : loc) (err : error) (w : World) :
  exists evs,
    trace (final (watch_iteration d err w)) = trace w ++ evs /\
    (length (filter (fun e => is_listener e = true) evs) <= 1)%nat /\
    forall o, EvListener o ∈ evs ->
      exists D tail w',
        stores w !! d = Some D /\ listener D <> None /\ o = object D /\
        evs = reload_events (object D) (meta D) ++
              EvRead CachedObject :: EvListener (object D) :: tail /\
        watch_iteration d err w = Ok None w'.
Proof.
  unfold watch_iteration.
  repeat (exec; try case_stuck); tidy_trace;
    (eexists; split; [first [reflexivity | symmetry; apply app_nil_r]|]).
  all: split; [vm_compute; lia|].
  all: intros o Hin.
  all: repeat (apply elem_of_cons in Hin as [Hin|Hin]; [try discriminate Hin|]).
  all: try (by apply elem_of_nil in Hin).
  all: injection Hin as ->.
  all: do 3 eexists; (split; [reflexivity|]).
  all: split; [congruence|].
  all: split; [reflexivity|]; split; reflexivity.
Qed.

(** X15. A failed reload does not end the watch.  With the policy still
    within its bound, the error is reported with the delay of the retry
    ("retrying in"), the goroutine sleeps for that delay, and the
    operation is run again on the notifications that are left; the guard
    is free and the failed notification is consumed. *)
Theorem watch_retries_failed_reload (fuel : nat) (d : loc) (err : error) (w : World)
    (D : Datastore) (rest : list Signal) (c : Config) (e : string)
    (b : ExponentialBackOff) :
  stores w !! d = Some D ->
  localLock D = unlocked ->
  inbox w = SigKv true :: rest ->
  objects w !! object D = Some c ->
  let r1 := LoadConfig_Object (kv D) c (ext w) in
  let next := fst (interval rt (retries b) (snd r1)) in
  snd (fst r1) = Some e ->
  MaxElapsedTime b = 0 \/ now w - startTime b <= MaxElapsedTime b ->
  exists w2,
    RetryNotify_loop rt (S (S fuel)) (watch_operation d err) b watch_notify w =
    RetryNotify_loop rt (S fuel) (watch_operation d err)
      (mkExponentialBackOff (MaxElapsedTime b) (startTime b) (S (retries b)))
      watch_notify w2 /\
    trace w2 = trace w ++ [EvLock; EvRead CachedObject;
                           EvLoadConfig CachedObject (object D); EvWrite CachedObject;
                           EvUnlock;
                           EvErrorf "Error in watch datastore: %+v, retrying in %s"
                             [AString e; ADuration next];
                           EvSleep (now w) next] /\
    inbox w2 = rest /\
    stores w2 = stores w /\
    now w2 = now w + Z.max 0 next.
Proof.
  intros Hd Hl Hin Ho r1 next H1 Hb. subst next r1.
  rewrite RetryNotify_loop_step.
  unfold watch_operation at 1. rewrite Hin. cbn [length]. rewrite watch_loop_step.
  unfold watch_iteration. exec.
  assert (Hc : negb (MaxElapsedTime b =? 0) && (MaxElapsedTime b <? now w - startTime b)
               = false).
  { destruct Hb as [->|Hb]; [reflexivity|].
    apply andb_false_iff. right. by apply Z.ltb_ge. }
  rewrite Hc. cbn zeta. unfold watch_notify at 1. exec.
  eexists. split; [reflexivity|]. wsimpl. tidy_trace. repeat split.
  by apply relock_stores.
Qed.


(** A batch of notifications on a client whose loads succeed. *)
Lemma watch_loop_batch (d : loc) (err : error) (D : Datastore) (n : nat) :
  (forall c x, snd (fst (LoadConfig_Object (kv D) c x)) = None) ->
  (forall m x, snd (fst (LoadConfig_Metadata (kv D) m x)) = None) ->
  localLock D = unlocked ->
  forall (fuel : nat) (w : World),
    (n < fuel)%nat ->
    stores w !! d = Some D ->
    is_Some (objects w !! object D) ->
    is_Some (metas w !! meta D) ->
    inbox w = replicate n (SigKv true) ->
    ctx_done w = false ->
    exists w' evs,
      watch_loop fuel d err w = Parked w' /\
      trace w' = trace w ++ evs /\
      length (filter (fun e => is_listener e = true) evs) =
        match listener D with Some _ => n | None => 0%nat end /\
      length (filter (fun e => is_external e = true) evs) = (2 * n)%nat /\
      inbox w' = [] /\
      stores w' = stores w.
Proof.
  intros HO HM Hl. induction n as [|n IH]; intros fuel w Hfuel Hd [c Hc] [m Hm] Hin Hdone.
  - destruct fuel as [|fuel]; [lia|]. rewrite watch_loop_step.
    unfold watch_iteration. cbn [replicate] in Hin. exec.
    exists w, []. rewrite app_nil_r. repeat split; [by destruct (listener D)|done].
  - destruct fuel as [|fuel]; [lia|]. rewrite watch_loop_step.
    cbn [replicate] in Hin.
    destruct (watch_iteration_reloads d err w D _ c m Hd Hl Hin Hc Hm (HO _ _) (HM _ _))
      as (w1 & tail & Hrun & Htr & Hcount & Hext & Hobj & Hmet & Hst & Hinb & Hcd).
    rewrite Hrun.
    destruct (IH fuel w1) as (w' & evs & Hrun' & Htr' & Hcount' & Hext' & Hinb' & Hst').
    { lia. }
    { by rewrite Hst. }
    { rewrite Hobj, lookup_insert_eq. eauto. }
    { rewrite Hmet, lookup_insert_eq. eauto. }
    { done. }
    { congruence. }
    exists w', (reload_events (object D) (meta D) ++ tail ++ evs).
    split; [exact Hrun'|]. split.
    { rewrite Htr', Htr. by rewrite <- !app_assoc. }
    split; [|split; [|split; [done|congruence]]].
    + rewrite !filter_app, !length_app, Hcount, Hcount'.
      destruct (listener D); reflexivity.
    + assert (Hr : length (filter (fun e => is_external e = true)
                               (reload_events (object D) (meta D))) = 2%nat)
        by reflexivity.
      rewrite !filter_app, !length_app, Hext, Hext', Hr. cbn [length]. lia.
Qed.

(** X16. On a client whose loads always succeed, [n] pending
    notifications are handled by one run of the operation: it reloads the
    cache [n] times, calls the configured listener [n] times (never, when
    none is configured), takes every notification from the channel and
    then waits for the next one, with the guard free. *)
Theorem watch_handles_batch (d : loc) (err : error) (w : World) (D : Datastore) (n : nat) :
  (forall c x, snd (fst (LoadConfig_Object (kv D) c x)) = None) ->
  (forall m x, snd (fst (LoadConfig_Metadata (kv D) m x)) = None) ->
  stores w !! d = Some D ->
  localLock D = unlocked ->
  is_Some (objects w !! object D) ->
  is_Some (metas w !! meta D) ->
  inbox w = replicate n (SigKv true) ->
  ctx_done w = false ->
  exists w' evs,
    watch_operation d err w = Parked w' /\
    trace w' = trace w ++ evs /\
    length (filter (fun e => is_listener e = true) evs) =
      match listener D with Some _ => n | None => 0%nat end /\
    length (filter (fun e => is_external e = true) evs) = (2 * n)%nat /\
    inbox w' = [] /\
    stores w' = stores w.
Proof.
  intros HO HM Hd Hl Ho Hm Hin Hdone.
  unfold watch_operation.
  apply (watch_loop_batch d err D n HO HM Hl); try done.
  rewrite Hin, length_replicate. lia.
Qed.

(** *** Aliasing *)

(** X17. The Object handed to a successful [Commit] becomes the cache
    itself: the next reload of the watch goroutine deserialises into that
    very instance, in place, whatever the outcome of the reload. *)
Theorem committed_instance_is_reloaded (s s' : datastoreTransaction) (v : Object)
    (w w1 : World) (err : error) (rest : list Signal) (c : Config) :
  Commit s v w = Ok (None, s') w1 ->
  inbox w1 = SigKv true :: rest ->
  objects w1 !! v = Some c ->
  exists D1 evs,
    stores w1 !! Datastore_ s = Some D1 /\ object D1 = v /\
    trace (final (watch_iteration (Datastore_ s) err w1)) =
      trace w1 ++ [EvLock; EvRead CachedObject; EvLoadConfig CachedObject v;
                   EvWrite CachedObject] ++ evs /\
    objects (final (watch_iteration (Datastore_ s) err w1)) =
      <[v := fst (fst (LoadConfig_Object (kv D1) c (ext w1)))]> (objects w1).
Proof.
  intros HC Hin Ho.
  apply Commit_success_inv in HC as (D & HD & Hl & _ & _ & Hst).
  assert (Hd1 : stores w1 !! Datastore_ s = Some (set_object v D)).
  { rewrite Hst. apply lookup_insert_eq. }
  exists (set_object v D). 
  unfold watch_iteration.
  repeat (exec; try case_stuck); tidy_trace;
    (eexists; split; [first [exact Hd1 | reflexivity]|];
     split; [reflexivity|]; split; reflexivity).
Qed.

(** X18. The pointer that [Get] returns is the cached instance, not a
    copy: the next reload of the watch goroutine changes the contents
    behind it. *)
Theorem Get_result_is_reloaded (d : loc) (o : Object) (w w1 : World) (D : Datastore)
    (err : error) (rest : list Signal) (c : Config) :
  Get d w = Ok o w1 ->
  stores w !! d = Some D ->
  localLock D = unlocked ->
  inbox w1 = SigKv true :: rest ->
  objects w1 !! o = Some c ->
  o = object D /\
  objects (final (watch_iteration d err w1)) =
    <[o := fst (fst (LoadConfig_Object (kv D) c (ext w1)))]> (objects w1).
Proof.
  intros HG Hd Hl Hin Ho.
  destruct (Get_cached d w D Hd) as (w1' & HG' & _ & _ & Hst & _).
  { by rewrite Hl. }
  rewrite HG in HG'. injection HG' as -> <-.
  split; [reflexivity|].
  rewrite <- Hst in Hd.
  unfold watch_iteration.
  repeat (exec; try case_stuck); reflexivity.
Qed.

(** *** What no operation does *)

(** X19. No operation of the file removes a Datastore or gives one a new
    client, lock key, Metadata pointer or listener: these are the same
    before and after [Get], [Load], [Commit], [Begin] and a run of the
    watch goroutine, however they end. *)
Theorem client_never_reassigned (fuel : nat) (d : loc) (s : datastoreTransaction)
    (v : Object) (t : GoTask) (w : World) :
  same_client w (final (Get d w)) /\
  same_client w (final (Load d w)) /\
  same_client w (final (Commit s v w)) /\
  same_client w (final (Begin rt fuel d w)) /\
  same_client w (final (watch_go rt fuel t w)).
Proof.
  split; [apply Get_same_client|].
  split; [apply Load_same_client|].
  split; [apply Commit_same_client|].
  split; [apply Begin_same_client|apply watch_go_same_client].
Qed.

End Further.

(** ** The further properties at work on the small store *)

Lemma Load_reloads_object_witness :
  exists w',
    Load 1%positive (Toy.world None [true] []) = Ok (None, Some "load: unavailable") w' /\
    stores w' = stores (Toy.world None [true] []).
Proof.
  destruct (Load_reloads_object 1%positive (Toy.world None [true] [])
              (Toy.datastore None) "v0")
    as (w' & H1 & _ & _ & _ & H2 & _); [vm_compute; reflexivity..|].
  exists w'. split; [exact H1|exact H2].
Defined.

Lemma Commit_success_witness :
  exists w',
    Commit (Toy.tx false) 2%positive (Toy.world None [] []) = Ok (None, Toy.tx true) w' /\
    trace w' = [EvWatch "traefik/lock"; EvLock; EvStoreConfig 2%positive; EvRemoteUnlock;
                EvWrite CachedObject;
                EvDebugf "Transaction commited %s"
                  [AString "6ba7b810-9dad-41d1-80b4-00c04fd430c8"];
                EvUnlock].
Proof.
  destruct (Commit_success (Toy.tx false) 2%positive (Toy.world None [] [])
              (Toy.datastore None))
    as (w' & H1 & H2 & _); [vm_compute; reflexivity..|].
  exists w'. split; [exact H1|exact H2].
Defined.

Lemma Commit_flag_witness :
  (Some "store: unavailable" = None /\ dirty (Toy.tx false) = false /\
   Toy.tx false = set_dirty true (Toy.tx false)) \/
  (Some "store: unavailable" <> None /\ Toy.tx false = Toy.tx false).
Proof.
  apply (Commit_flag (Toy.tx false) (Toy.tx false) 2%positive
           (Toy.world None [true] [])
           (final (Commit (Toy.tx false) 2%positive (Toy.world None [true] [])))
           (Some "store: unavailable")).
  vm_compute; reflexivity.
Defined.

Lemma guard_released_on_return_witness :
  stores (final (Get 1%positive (Toy.world None [] []))) = stores (Toy.world None [] []).
Proof.
  destruct (guard_released_on_return 1%positive (Toy.tx false) 2%positive
              (Toy.world None [] [])) as (H & _).
  apply (H 1%positive). vm_compute; reflexivity.
Defined.


Lemma Begin_cancelled_witness :
  (exists w',
     Begin Steady.cancelled 5 1%positive (Toy.world None [] []) =
       Ok (None, Some "context canceled") w' /\
     stores w' = stores (Toy.world None [] [])) /\
  (exists w',
     Begin Steady.cancelled_late 5 1%positive (Toy.world None [] []) = Parked w' /\
     stores w' = stores (Toy.world None [] [])).
Proof.
  split.
  - destruct (Begin_cancelled Steady.cancelled 5 1%positive (Toy.world None [] [])
                (Toy.datastore None) (Some "context canceled"))
      as (H & _); [vm_compute; reflexivity..|].
    destruct H as (w' & H1 & _ & _ & H2 & _); [vm_compute; reflexivity|].
    exists w'. split; [exact H1|exact H2].
  - destruct (Begin_cancelled Steady.cancelled_late 5 1%positive (Toy.world None [] [])
                (Toy.datastore None) (Some "context canceled"))
      as (_ & H); [vm_compute; reflexivity..|].
    destruct H as (w' & H1 & _ & H2 & _); [vm_compute; reflexivity|].
    exists w'. split; [exact H1|exact H2].
Defined.

Lemma Begin_transaction_fresh_witness :
  (None : error) = None /\
  Toy.tx false =
    mkTransaction 1%positive
      (fst (fst (NewLock Toy.kvSource "traefik/lock"
                   {| TTL := 20 * Second;
                      Value := String.list_byte_of_string
                                 "6ba7b810-9dad-41d1-80b4-00c04fd430c8" |}
                   (Toy.mkExt "v0" "" []))))
      false "6ba7b810-9dad-41d1-80b4-00c04fd430c8".
Proof.
  apply (Begin_transaction_fresh (Toy.runtime Toy.catching_up) 5 1%positive
           (Toy.world None [] [])
           (final (Begin (Toy.runtime Toy.catching_up) 5 1%positive (Toy.world None [] [])))
           (Toy.datastore None) (Toy.tx false) None);
    vm_compute; reflexivity.
Defined.

Lemma fresh_Datastore_not_synced_witness :
  exists w2,
    Begin_operation 1%positive "6ba7b810-9dad-41d1-80b4-00c04fd430c8"
      (Toy.world None [] []) =
    Ok (Some "Object lock value: expected 6ba7b810-9dad-41d1-80b4-00c04fd430c8, got ") w2.
Proof.
  destruct (fresh_Datastore_not_synced Toy.kvSource 0%nat 1%positive None
              (Toy.boot []) (Toy.world None [] []) 1%positive
              "6ba7b810-9dad-41d1-80b4-00c04fd430c8")
    as (w2 & H & _); [vm_compute; reflexivity|discriminate|].
  exists w2. exact H.
Defined.

Lemma Begin_synced_at_once_witness :
  exists w',
    Begin (Toy.runtime Toy.stuck) 1 1%positive Steady.synced =
      Ok (Some (Toy.tx false), None) w' /\
    now w' = 0.
Proof.
  destruct (Begin_synced_at_once (Toy.runtime Toy.stuck) 0 1%positive Steady.synced
              (Toy.datastore None)
              (Toy.locker "6ba7b810-9dad-41d1-80b4-00c04fd430c8")
              (mkMetadata "6ba7b810-9dad-41d1-80b4-00c04fd430c8"))
    as (w' & H1 & _ & H2 & _); [vm_compute; reflexivity..|].
  exists w'. split; [exact H1|exact H2].
Defined.

Lemma watch_stops_on_done_witness :
  (exists w',
     watch_go (Toy.runtime Toy.stuck) 1 (mkGoTask 1%positive None)
       (Toy.world None [] [SigCtxDone; SigKv true]) = Ok tt w' /\
     trace w' = [EvWatch "traefik/lock"; EvStop] /\
     inbox w' = [SigKv true]) /\
  (exists w',
     watch_go (Toy.runtime Toy.stuck) 1 (mkGoTask 1%positive None)
       (Toy.world None [] [SigCtxDoneUnheard; SigKv true]) = Parked w' /\
     trace w' = [EvWatch "traefik/lock"] /\
     inbox w' = [SigKv true]).
Proof.
  split.
  - destruct (watch_stops_on_done (Toy.runtime Toy.stuck) 0 (mkGoTask 1%positive None)
                (Toy.world None [] [SigCtxDone; SigKv true]) [SigKv true])
      as (H & _).
    destruct H as (w' & H1 & H2 & H3 & _); [vm_compute; reflexivity|].
    exists w'. split; [exact H1|]. split; [exact H2|exact H3].
  - destruct (watch_stops_on_done (Toy.runtime Toy.stuck) 0 (mkGoTask 1%positive None)
                (Toy.world None [] [SigCtxDoneUnheard; SigKv true]) [SigKv true])
      as (_ & H).
    destruct H as (w' & H1 & H2 & H3 & _); [vm_compute; reflexivity|].
    exists w'. split; [exact H1|]. split; [exact H2|exact H3].
Defined.

Lemma reload_fails_on_metadata_witness :
  exists w',
    watch_iteration 1%positive None (Toy.world None [false; true] [SigKv true]) =
      Ok (Some (Some "load: unavailable")) w' /\
    objects w' = <[1%positive := "v0"]> (objects (Toy.world None [false; true] [SigKv true])).
Proof.
  destruct (reload_fails_on_metadata 1%positive None
              (Toy.world None [false; true] [SigKv true]) (Toy.datastore None) []
              "v0" (mkMetadata "") "load: unavailable")
    as (w' & H1 & _ & H2 & _); [vm_compute; reflexivity..|].
  exists w'. split; [exact H1|exact H2].
Defined.

Lemma watch_retries_failed_reload_witness :
  exists w2,
    RetryNotify_loop (Toy.runtime Toy.stuck) 2 (watch_operation 1%positive None)
      (mkExponentialBackOff 0 0 0) watch_notify
      (Toy.world None [true] [SigKv true; SigCtxDone]) =
    RetryNotify_loop (Toy.runtime Toy.stuck) 1 (watch_operation 1%positive None)
      (mkExponentialBackOff 0 0 1) watch_notify w2 /\
    inbox w2 = [SigCtxDone] /\
    now w2 = 500000000.
Proof.
  destruct (watch_retries_failed_reload (Toy.runtime Toy.stuck) 0 1%positive None
              (Toy.world None [true] [SigKv true; SigCtxDone]) (Toy.datastore None)
              [SigCtxDone] "v0" "load: unavailable" (mkExponentialBackOff 0 0 0))
    as (w2 & H1 & _ & H2 & _ & H3); [vm_compute; reflexivity..|by left|].
  exists w2. split; [exact H1|]. split; [exact H2|exact H3].
Defined.

Lemma watch_handles_batch_witness :
  exists w' evs,
    watch_operation 1%positive None
      (Steady.world (Some Toy.on_change) [SigKv true; SigKv true; SigKv true]) = Parked w' /\
    length (filter (fun e => is_listener e = true) evs) = 3%nat /\
    inbox w' = [].
Proof.
  destruct (watch_handles_batch 1%positive None
              (Steady.world (Some Toy.on_change) [SigKv true; SigKv true; SigKv true])
              (Steady.datastore (Some Toy.on_change)) 3)
    as (w' & evs & H1 & _ & H2 & _ & H3 & _);
    [intros; reflexivity|intros; reflexivity|vm_compute; reflexivity|reflexivity
    |by eexists|by eexists|reflexivity|reflexivity|].
  exists w', evs. split; [exact H1|]. split; [exact H2|exact H3].
Defined.

Lemma committed_instance_is_reloaded_witness :
  exists D1 evs,
    stores (final (Commit (Toy.tx false) 2%positive (Toy.world None [] [SigKv true])))
      !! 1%positive = Some D1 /\
    object D1 = 2%positive /\
    trace (final (watch_iteration 1%positive None
                    (final (Commit (Toy.tx false) 2%positive
                              (Toy.world None [] [SigKv true]))))) =
      trace (final (Commit (Toy.tx false) 2%positive (Toy.world None [] [SigKv true])))
      ++ [EvLock; EvRead CachedObject; EvLoadConfig CachedObject 2%positive;
          EvWrite CachedObject] ++ evs.
Proof.
  destruct (committed_instance_is_reloaded (Toy.tx false) (Toy.tx true) 2%positive
              (Toy.world None [] [SigKv true])
              (final (Commit (Toy.tx false) 2%positive (Toy.world None [] [SigKv true])))
              None [] "v1")
    as (D1 & evs & H1 & H2 & H3 & _); [vm_compute; reflexivity..|].
  exists D1, evs. split; [exact H1|]. split; [exact H2|exact H3].
Defined.

Lemma Get_result_is_reloaded_witness :
  1%positive = object (Steady.datastore None) /\
  objects (final (watch_iteration 1%positive None
                    (final (Get 1%positive (Steady.world None [SigKv true]))))) =
    <[1%positive := "v2"]>
      (objects (final (Get 1%positive (Steady.world None [SigKv true])))).
Proof.
  destruct (Get_result_is_reloaded 1%positive 1%positive (Steady.world None [SigKv true])
              (final (Get 1%positive (Steady.world None [SigKv true])))
              (Steady.datastore None) None [] "v0")
    as (H1 & H2); [vm_compute; reflexivity..|].
  split; [exact H1|exact H2].
Defined.
